(** * openwechat: session lifecycle and long-poll synchronisation of [Bot]

    A shallow embedding of [bot.go].  The orchestrator [Bot] is a record, its
    methods are state-passing functions over a [Bot] and a [trace] of the
    externally visible effects (remote calls through the [Caller], callback
    invocations, writes of the sync cursor).  The remote side, the methods of
    [SyncCheckResponse], the [Ret] constants and the JSON codec live outside
    [bot.go]; they are collected in the record [Env].  General results hold
    for an arbitrary [Env]; runs that end badly are exhibited on the concrete
    one of [Sample]. *)

From Stdlib Require Import ZArith List String Bool Lia.
From Stdlib Require Import Strings.Byte.
Import ListNotations.
Open Scope string_scope.
Open Scope list_scope.

(** ** Errors *)

(** [type Ret int]; a [Ret] value is itself an [error]. *)
Definition Ret := Z.

(** Non-nil values of Go's [error] interface.  A nil error is [None] of
    [option error]. *)
Inductive error : Type :=
| RetError (r : Ret)                      (* a Ret used as an error value *)
| errors_New (msg : string)               (* errors.New(msg) *)
| Wrapped (msg : string) (inner : error). (* an error whose Unwrap is inner *)

(** [errors.As(err, &ret)] with [var ret Ret]: the first [Ret] met along the
    Unwrap chain, if any. *)
Fixpoint errors_As_Ret (e : error) : option Ret :=
  match e with
  | RetError r => Some r
  | errors_New _ => None
  | Wrapped _ inner => errors_As_Ret inner
  end.

(** ** Session data *)

(** Modelled from the spec: the Sync Cursor is an opaque token returned by the
    service; its declaration is not part of [bot.go]. *)
Definition SyncKey := string.

(** Modelled from the spec: the contact object model is external; a user is
    identified by an opaque name. *)
Definition User := string.

(** Modelled from the spec: the message payload schema is external; an event
    is an opaque payload. *)
Definition Message := string.

(** Modelled from the spec: the cookie store is opaque and transport-defined. *)
Definition CookieJar := list string.

(** The fields [HandleLogin] writes. *)
Record BaseRequest : Type := {
  Uin : Z;
  Sid : string;
  Skey : string;
  DeviceID : string
}.

(** The fields [HandleLogin] reads. *)
Record LoginInfo : Type := {
  WxUin : Z;
  WxSid : string;
  SKey : string
}.

(** [WebInitResponse]: [WebInit] reads [resp.User], [syncMessage] writes
    [Response.SyncKey]. *)
Record WebInitResponse : Type := {
  init_User : User;
  init_SyncKey : SyncKey
}.

(** [WebWxSyncResponse]: [syncMessage] reads [SyncKey] and [AddMsgList]. *)
Record WebWxSyncResponse : Type := {
  sync_SyncKey : SyncKey;
  AddMsgList : list Message
}.

(** [SyncCheckResponse]: the default heartbeat prints [RetCode] and
    [Selector]. *)
Record SyncCheckResponse : Type := {
  RetCode : string;
  Selector : string
}.

(** [Storage]: three pointers, nil is [None]. *)
Record Storage : Type := {
  Storage_LoginInfo : option LoginInfo;
  Storage_Request : option BaseRequest;
  Storage_Response : option WebInitResponse
}.

(** The part of [Caller.Client] that [bot.go] touches. *)
Record Client : Type := {
  Domain : string;
  Jar : CookieJar
}.

(** [HotReloadStorageItem], with the five fields [DumpTo] fills. *)
Record HotReloadStorageItem : Type := {
  item_BaseRequest : option BaseRequest;
  item_Jar : CookieJar;
  item_LoginInfo : option LoginInfo;
  item_WechatDomain : string;
  item_UUID : string
}.

(** [MessageErrorHandler func(err error) bool]: either a handler supplied by
    the caller or the closure [defaultSyncCheckErrHandler(b)] that [WebInit]
    installs. *)
Inductive ErrHandler : Type :=
| CustomHandler (f : error -> bool)
| DefaultHandler.

(** [Bot].  The callbacks [LogoutCallBack], [SyncCheckCallback] and
    [MessageHandler] are opaque to this file: the record keeps whether each is
    set, an invocation is an event of the trace.  [once] is the state of the
    [sync.Once]; [context_Done] says whether [b.context.Done()] is closed.
    [hotReloadStorage] is the content of the backing store, read from its
    start.  [ScanCallBack], [LoginCallBack] and [UUIDCallback] are used by the
    login strategies only and are left out. *)
Record Bot : Type := {
  LogoutCallBack : bool;
  SyncCheckCallback : bool;
  MessageHandler : bool;
  MessageErrorHandler : option ErrHandler;
  once : bool;
  err : option error;
  context_Done : bool;
  Caller_Client : Client;
  self : option User;
  bot_Storage : Storage;
  hotReloadStorage : option (list byte);
  uuid : string;
  deviceId : string
}.

(** ** Observable effects *)

Inductive event : Type :=
| CallGetLoginInfo (data : list byte)
| CallWebInit (req : option BaseRequest)
| CallWebWxStatusNotify (req : option BaseRequest) (resp : WebInitResponse)
    (info : option LoginInfo)
| CallSyncCheck (req : option BaseRequest) (info : option LoginInfo)
    (resp : option WebInitResponse)
| CallWebWxSync (req : option BaseRequest) (resp : option WebInitResponse)
    (info : option LoginInfo)
| CallLogout (info : option LoginInfo)
| HeartBeat (resp : SyncCheckResponse)        (* b.SyncCheckCallback(resp) *)
| StoreSyncKey (k : SyncKey)                  (* Response.SyncKey = k *)
| Handle (m : Message) (cursor : option SyncKey) (* b.MessageHandler(m) *)
| LogoutNotify                                (* b.LogoutCallBack(b) *)
| StartSyncLoop.                              (* the body given to once.Do runs *)

(** Events in the order they happen. *)
Definition trace := list event.

(** ** External collaborators *)

(** Everything [bot.go] uses and does not define.  A remote call answers as a
    function of the history so far and of its arguments. *)
Record Env : Type := {
  (* the remote Caller *)
  Caller_GetLoginInfo : trace -> list byte -> error + LoginInfo;
  Caller_WebInit : trace -> option BaseRequest -> error + WebInitResponse;
  Caller_WebWxStatusNotify :
    trace -> option BaseRequest -> WebInitResponse -> option LoginInfo ->
    option error;
  Caller_SyncCheck :
    trace -> option BaseRequest -> option LoginInfo ->
    option WebInitResponse -> error + SyncCheckResponse;
  Caller_WebWxSync :
    trace -> option BaseRequest -> option WebInitResponse ->
    option LoginInfo -> error + WebWxSyncResponse;
  Caller_Logout : trace -> option LoginInfo -> option error;
  GetRandomDeviceId : trace -> string;
  DefaultCaller_Client : Client;
  (* Self.formatEmoji, acting on the user it points to *)
  formatEmoji : User -> User;
  (* methods of SyncCheckResponse *)
  Success : SyncCheckResponse -> bool;
  NorMal : SyncCheckResponse -> bool;
  Err : SyncCheckResponse -> option error;
  (* Ret constants *)
  failedLoginCheck : Ret;
  cookieInvalid : Ret;
  failedLoginWarn : Ret;
  (* encoding/json on HotReloadStorageItem *)
  json_Encode : HotReloadStorageItem -> error + list byte;
  json_Decode : list byte -> error + HotReloadStorageItem
}.

(** ** Field updates *)

Definition set_self (v : option User) (b : Bot) : Bot :=
  {| LogoutCallBack := LogoutCallBack b;
     SyncCheckCallback := SyncCheckCallback b;
     MessageHandler := MessageHandler b;
     MessageErrorHandler := MessageErrorHandler b;
     once := once b;
     err := err b;
     context_Done := context_Done b;
     Caller_Client := Caller_Client b;
     self := v;
     bot_Storage := bot_Storage b;
     hotReloadStorage := hotReloadStorage b;
     uuid := uuid b;
     deviceId := deviceId b |}.

Definition set_context_Done (v : bool) (b : Bot) : Bot :=
  {| LogoutCallBack := LogoutCallBack b;
     SyncCheckCallback := SyncCheckCallback b;
     MessageHandler := MessageHandler b;
     MessageErrorHandler := MessageErrorHandler b;
     once := once b;
     err := err b;
     context_Done := v;
     Caller_Client := Caller_Client b;
     self := self b;
     bot_Storage := bot_Storage b;
     hotReloadStorage := hotReloadStorage b;
     uuid := uuid b;
     deviceId := deviceId b |}.

Definition set_once (v : bool) (b : Bot) : Bot :=
  {| LogoutCallBack := LogoutCallBack b;
     SyncCheckCallback := SyncCheckCallback b;
     MessageHandler := MessageHandler b;
     MessageErrorHandler := MessageErrorHandler b;
     once := v;
     err := err b;
     context_Done := context_Done b;
     Caller_Client := Caller_Client b;
     self := self b;
     bot_Storage := bot_Storage b;
     hotReloadStorage := hotReloadStorage b;
     uuid := uuid b;
     deviceId := deviceId b |}.

Definition set_err (v : option error) (b : Bot) : Bot :=
  {| LogoutCallBack := LogoutCallBack b;
     SyncCheckCallback := SyncCheckCallback b;
     MessageHandler := MessageHandler b;
     MessageErrorHandler := MessageErrorHandler b;
     once := once b;
     err := v;
     context_Done := context_Done b;
     Caller_Client := Caller_Client b;
     self := self b;
     bot_Storage := bot_Storage b;
     hotReloadStorage := hotReloadStorage b;
     uuid := uuid b;
     deviceId := deviceId b |}.

Definition set_MessageErrorHandler (v : option ErrHandler) (b : Bot) : Bot :=
  {| LogoutCallBack := LogoutCallBack b;
     SyncCheckCallback := SyncCheckCallback b;
     MessageHandler := MessageHandler b;
     MessageErrorHandler := v;
     once := once b;
     err := err b;
     context_Done := context_Done b;
     Caller_Client := Caller_Client b;
     self := self b;
     bot_Storage := bot_Storage b;
     hotReloadStorage := hotReloadStorage b;
     uuid := uuid b;
     deviceId := deviceId b |}.

Definition set_Caller_Client (v : Client) (b : Bot) : Bot :=
  {| LogoutCallBack := LogoutCallBack b;
     SyncCheckCallback := SyncCheckCallback b;
     MessageHandler := MessageHandler b;
     MessageErrorHandler := MessageErrorHandler b;
     once := once b;
     err := err b;
     context_Done := context_Done b;
     Caller_Client := v;
     self := self b;
     bot_Storage := bot_Storage b;
     hotReloadStorage := hotReloadStorage b;
     uuid := uuid b;
     deviceId := deviceId b |}.

Definition set_Storage (v : Storage) (b : Bot) : Bot :=
  {| LogoutCallBack := LogoutCallBack b;
     SyncCheckCallback := SyncCheckCallback b;
     MessageHandler := MessageHandler b;
     MessageErrorHandler := MessageErrorHandler b;
     once := once b;
     err := err b;
     context_Done := context_Done b;
     Caller_Client := Caller_Client b;
     self := self b;
     bot_Storage := v;
     hotReloadStorage := hotReloadStorage b;
     uuid := uuid b;
     deviceId := deviceId b |}.

Definition set_hotReloadStorage (v : option (list byte)) (b : Bot) : Bot :=
  {| LogoutCallBack := LogoutCallBack b;
     SyncCheckCallback := SyncCheckCallback b;
     MessageHandler := MessageHandler b;
     MessageErrorHandler := MessageErrorHandler b;
     once := once b;
     err := err b;
     context_Done := context_Done b;
     Caller_Client := Caller_Client b;
     self := self b;
     bot_Storage := bot_Storage b;
     hotReloadStorage := v;
     uuid := uuid b;
     deviceId := deviceId b |}.

Definition set_uuid (v : string) (b : Bot) : Bot :=
  {| LogoutCallBack := LogoutCallBack b;
     SyncCheckCallback := SyncCheckCallback b;
     MessageHandler := MessageHandler b;
     MessageErrorHandler := MessageErrorHandler b;
     once := once b;
     err := err b;
     context_Done := context_Done b;
     Caller_Client := Caller_Client b;
     self := self b;
     bot_Storage := bot_Storage b;
     hotReloadStorage := hotReloadStorage b;
     uuid := v;
     deviceId := deviceId b |}.

Definition set_deviceId (v : string) (b : Bot) : Bot :=
  {| LogoutCallBack := LogoutCallBack b;
     SyncCheckCallback := SyncCheckCallback b;
     MessageHandler := MessageHandler b;
     MessageErrorHandler := MessageErrorHandler b;
     once := once b;
     err := err b;
     context_Done := context_Done b;
     Caller_Client := Caller_Client b;
     self := self b;
     bot_Storage := bot_Storage b;
     hotReloadStorage := hotReloadStorage b;
     uuid := uuid b;
     deviceId := v |}.

Definition set_Storage_LoginInfo (v : option LoginInfo) (s : Storage) : Storage :=
  {| Storage_LoginInfo := v;
     Storage_Request := Storage_Request s;
     Storage_Response := Storage_Response s |}.

Definition set_Storage_Request (v : option BaseRequest) (s : Storage) : Storage :=
  {| Storage_LoginInfo := Storage_LoginInfo s;
     Storage_Request := v;
     Storage_Response := Storage_Response s |}.

Definition set_Storage_Response (v : option WebInitResponse) (s : Storage)
  : Storage :=
  {| Storage_LoginInfo := Storage_LoginInfo s;
     Storage_Request := Storage_Request s;
     Storage_Response := v |}.

(** The Sync Cursor of the session state: [b.Storage.Response.SyncKey]. *)
Definition cursor (b : Bot) : option SyncKey :=
  option_map init_SyncKey (Storage_Response (bot_Storage b)).

(** ** Results of the loop *)

(** What one pass through the body of a [for] loop decides. *)
Inductive ctl (A : Type) : Type :=
| Continue            (* next iteration *)
| Returned (a : A)    (* return / break with a value *)
| Panicked.           (* nil dereference *)
Arguments Continue {A}.
Arguments Returned {A} a.
Arguments Panicked {A}.

(** What a caller of [Block] observes. *)
Inductive BlockResult : Type :=
| BlockReturns (e : option error)
| BlockWaits.   (* suspended on <-b.Context().Done() *)

(** ** Methods of [Bot] *)

Section Methods.

Variable env : Env.

(** [Bot.Alive] *)
Definition Alive (b : Bot) : bool :=
  match self b with
  | None => false
  | Some _ => if context_Done b then false else true
  end.

(** [Bot.SetDeviceId] *)
Definition SetDeviceId (deviceId : string) (b : Bot) : Bot :=
  set_deviceId deviceId b.

(** [Bot.GetCurrentUser] *)
Definition GetCurrentUser (b : Bot) : error + User :=
  match self b with
  | None => inl (errors_New "user not login")
  | Some u => inr u
  end.

(** [Bot.Exit] *)
Definition Exit (b : Bot) (t : trace) : Bot * trace :=
  let t1 := if LogoutCallBack b then t ++ [LogoutNotify] else t in
  let b1 := set_self None b in
  (set_context_Done true b1, t1).

(** [Bot.Logout] *)
Definition Logout (b : Bot) (t : trace) : Bot * trace * option error :=
  if Alive b then
    let info := Storage_LoginInfo (bot_Storage b) in
    match Caller_Logout env t info with
    | Some e => (b, t ++ [CallLogout info], Some e)
    | None =>
        let '(b1, t1) := Exit b (t ++ [CallLogout info]) in
        (b1, t1, None)
    end
  else (b, t, Some (errors_New "user not login")).

(** [Bot.Block] *)
Definition Block (b : Bot) : BlockResult :=
  match self b with
  | None =>
      BlockReturns (Some (errors_New "`Block` must be called after user login"))
  | Some _ => if context_Done b then BlockReturns None else BlockWaits
  end.

(** [Bot.CrashReason] *)
Definition CrashReason (b : Bot) : option error := err b.

(** [Bot.IsHot] *)
Definition IsHot (b : Bot) : bool :=
  match hotReloadStorage b with Some _ => true | None => false end.

(** [Bot.UUID] *)
Definition UUID (b : Bot) : string := uuid b.

(** The [HotReloadStorageItem] literal of [DumpTo]. *)
Definition DumpTo_item (b : Bot) : HotReloadStorageItem :=
  let cookies := Jar (Caller_Client b) in
  {| item_BaseRequest := Storage_Request (bot_Storage b);
     item_Jar := cookies;
     item_LoginInfo := Storage_LoginInfo (bot_Storage b);
     item_WechatDomain := Domain (Caller_Client b);
     item_UUID := uuid b |}.

(** [Bot.DumpTo]: the encoded item is appended to what the writer holds.
    The writer is an in-memory buffer whose [Write] does not fail, so the
    only error is the encoder's. *)
Definition DumpTo (b : Bot) (writer : list byte) : list byte * option error :=
  match json_Encode env (DumpTo_item b) with
  | inl e => (writer, Some e)
  | inr bytes => (writer ++ bytes, None)
  end.

(** [Bot.DumpHotReloadStorage] *)
Definition DumpHotReloadStorage (b : Bot) : Bot * option error :=
  match hotReloadStorage b with
  | None => (b, Some (errors_New "HotReloadStorage can not be nil"))
  | Some w =>
      let '(w1, e) := DumpTo b w in
      (set_hotReloadStorage (Some w1) b, e)
  end.

(** [Bot.reload] *)
Definition reload (b : Bot) : Bot * option error :=
  match hotReloadStorage b with
  | None => (b, Some (errors_New "hotReloadStorage is nil"))
  | Some content =>
      match json_Decode env content with
      | inl e => (b, Some e)
      | inr item =>
          let b1 :=
            set_Caller_Client
              {| Domain := Domain (Caller_Client b); Jar := item_Jar item |} b in
          let b2 :=
            set_Storage
              (set_Storage_LoginInfo (item_LoginInfo item) (bot_Storage b1)) b1 in
          let b3 :=
            set_Storage
              (set_Storage_Request (item_BaseRequest item) (bot_Storage b2)) b2 in
          let b4 :=
            set_Caller_Client
              {| Domain := item_WechatDomain item;
                 Jar := Jar (Caller_Client b3) |} b3 in
          (set_uuid (item_UUID item) b4, None)
      end
  end.

(** [NewBot], for a parent context that is not cancelled. *)
Definition NewBot : Bot :=
  {| LogoutCallBack := false;
     SyncCheckCallback := false;
     MessageHandler := false;
     MessageErrorHandler := None;
     once := false;
     err := None;
     context_Done := false;
     Caller_Client := DefaultCaller_Client env;
     self := None;
     bot_Storage :=
       {| Storage_LoginInfo := None;
          Storage_Request := None;
          Storage_Response := None |};
     hotReloadStorage := None;
     uuid := "";
     deviceId := "" |}.

(** [Bot.syncMessage] *)
Definition syncMessage (b : Bot) (t : trace)
  : Bot * trace * ctl (error + list Message) :=
  let req := Storage_Request (bot_Storage b) in
  let resp0 := Storage_Response (bot_Storage b) in
  let info := Storage_LoginInfo (bot_Storage b) in
  let t1 := t ++ [CallWebWxSync req resp0 info] in
  match Caller_WebWxSync env t req resp0 info with
  | inl e => (b, t1, Returned (inl e))
  | inr resp =>
      match resp0 with
      | None => (b, t1, Panicked)
      | Some r0 =>
          let r1 :=
            {| init_User := init_User r0;
               init_SyncKey := sync_SyncKey resp |} in
          (set_Storage (set_Storage_Response (Some r1) (bot_Storage b)) b,
           t1 ++ [StoreSyncKey (sync_SyncKey resp)],
           Returned (inr (AddMsgList resp)))
      end
  end.

(** The [for _, message := range messages] of [syncCheck]: one synchronous
    handler call per message, each seeing the bot as it then is.  What a
    handler does with the bot it is handed lies outside [bot.go]: a call is
    recorded and leaves the bot as it is, so a statement about the state
    after a pass speaks of the loop's own writes. *)
Definition dispatch (b : Bot) (messages : list Message) : trace :=
  map (fun message => Handle message (cursor b)) messages.

(** One pass through the body of the [for b.Alive()] loop of [syncCheck]. *)
Definition syncCheck_body (b : Bot) (t : trace)
  : Bot * trace * ctl (option error) :=
  let req := Storage_Request (bot_Storage b) in
  let info := Storage_LoginInfo (bot_Storage b) in
  let resp0 := Storage_Response (bot_Storage b) in
  let t1 := t ++ [CallSyncCheck req info resp0] in
  match Caller_SyncCheck env t req info resp0 with
  | inl e => (b, t1, Returned (Some e))
  | inr resp =>
      let t2 := if SyncCheckCallback b then t1 ++ [HeartBeat resp] else t1 in
      if negb (Success env resp) then (b, t2, Returned (Err env resp))
      else if negb (NorMal env resp) then
        match syncMessage b t2 with
        | (b1, t3, Returned (inl e)) => (b1, t3, Returned (Some e))
        | (b1, t3, Panicked) => (b1, t3, Panicked)
        | (b1, t3, Continue) => (b1, t3, Continue)
        | (b1, t3, Returned (inr messages)) =>
            if MessageHandler b1 then (b1, t3 ++ dispatch b1 messages, Continue)
            else (b1, t3, Continue)
        end
      else (b, t2, Continue)
  end.

(** [Bot.syncCheck].  [fuel] bounds the number of loop heads evaluated;
    [None] means the bound was reached with the loop still running. *)
Fixpoint syncCheck (fuel : nat) (b : Bot) (t : trace)
  : option (Bot * trace * ctl (option error)) :=
  match fuel with
  | O => None
  | S fuel' =>
      if Alive b then
        match syncCheck_body b t with
        | (b1, t1, Continue) => syncCheck fuel' b1 t1
        | (b1, t1, r) => Some (b1, t1, r)
        end
      else Some (b, t, Returned None)
  end.

(** [defaultSyncCheckErrHandler(bot)], applied to an error. *)
Definition defaultSyncCheckErrHandler (bot : Bot) (t : trace) (e : error)
  : Bot * trace * bool :=
  match errors_As_Ret e with
  | Some ret =>
      if (ret =? failedLoginCheck env)%Z || (ret =? cookieInvalid env)%Z
         || (ret =? failedLoginWarn env)%Z
      then
        let '(bot1, t1, _) := Logout bot t in
        (bot1, t1, false)
      else (bot, t, true)
  | None => (bot, t, true)
  end.

(** A call of [b.MessageErrorHandler(err)]; a nil handler panics. *)
Definition call_MessageErrorHandler (b : Bot) (t : trace) (e : error)
  : Bot * trace * ctl bool :=
  match MessageErrorHandler b with
  | None => (b, t, Panicked)
  | Some (CustomHandler f) => (b, t, Returned (f e))
  | Some DefaultHandler =>
      let '(b1, t1, goon) := defaultSyncCheckErrHandler b t e in
      (b1, t1, Returned goon)
  end.

(** One pass through the body of the [for] loop that [WebInit] hands to
    [once.Do].  [Returned tt] is the [break]. *)
Definition listen_body (fuel : nat) (b : Bot) (t : trace)
  : option (Bot * trace * ctl unit) :=
  match syncCheck fuel b t with
  | None => None
  | Some (b1, t1, Continue) => Some (b1, t1, Continue)
  | Some (b1, t1, Panicked) => Some (b1, t1, Panicked)
  | Some (b1, t1, Returned None) => Some (b1, t1, Continue)
  | Some (b1, t1, Returned (Some e)) =>
      match call_MessageErrorHandler b1 t1 e with
      | (b2, t2, Returned goon) =>
          if negb goon then (Some (set_err (Some e) b2, t2, Returned tt))
          else Some (b2, t2, Continue)
      | (b2, t2, _) => Some (b2, t2, Panicked)
      end
  end.

(** The [for] loop of the function given to [once.Do]. *)
Fixpoint listen_loop (fuel : nat) (b : Bot) (t : trace)
  : option (Bot * trace * ctl unit) :=
  match fuel with
  | O => None
  | S fuel' =>
      match listen_body fuel' b t with
      | None => None
      | Some (b1, t1, Continue) => listen_loop fuel' b1 t1
      | Some r => Some r
      end
  end.

(** The function given to [once.Do]: the background task.  [None] means it is
    still running after [fuel] loop heads. *)
Definition listen (fuel : nat) (b : Bot) (t : trace)
  : option (Bot * trace * ctl unit) :=
  let b1 :=
    match MessageErrorHandler b with
    | None => set_MessageErrorHandler (Some DefaultHandler) b
    | Some _ => b
    end in
  listen_loop fuel b1 t.

(** [go b.once.Do(f)]: [f] is started only by the first [Do]. *)
Definition go_once_Do (b : Bot) (t : trace) : Bot * trace :=
  if once b then (b, t) else (set_once true b, t ++ [StartSyncLoop]).

(** [Bot.WebInit] *)
Definition WebInit (b : Bot) (t : trace) : Bot * trace * option error :=
  let req := Storage_Request (bot_Storage b) in
  let info := Storage_LoginInfo (bot_Storage b) in
  let t1 := t ++ [CallWebInit req] in
  match Caller_WebInit env t req with
  | inl e => (b, t1, Some e)
  | inr resp0 =>
      let resp :=
        {| init_User := formatEmoji env (init_User resp0);
           init_SyncKey := init_SyncKey resp0 |} in
      let b1 := set_self (Some (init_User resp)) b in
      let b2 :=
        set_Storage (set_Storage_Response (Some resp) (bot_Storage b1)) b1 in
      let t2 := t1 ++ [CallWebWxStatusNotify req resp info] in
      match Caller_WebWxStatusNotify env t1 req resp info with
      | Some e => (b2, t2, Some e)
      | None =>
          let '(b3, t3) := go_once_Do b2 t2 in
          (b3, t3, None)
      end
  end.

(** [Bot.HandleLogin] *)
Definition HandleLogin (data : list byte) (b : Bot) (t : trace)
  : Bot * trace * option error :=
  let t1 := t ++ [CallGetLoginInfo data] in
  match Caller_GetLoginInfo env t data with
  | inl e => (b, t1, Some e)
  | inr info =>
      let b1 :=
        set_Storage (set_Storage_LoginInfo (Some info) (bot_Storage b)) b in
      let b2 :=
        if String.eqb (deviceId b1) "" then
          set_deviceId (GetRandomDeviceId env t1) b1
        else b1 in
      let request :=
        {| Uin := WxUin info;
           Sid := WxSid info;
           Skey := SKey info;
           DeviceID := deviceId b2 |} in
      let b3 :=
        set_Storage (set_Storage_Request (Some request) (bot_Storage b2)) b2 in
      match hotReloadStorage b3 with
      | Some _ =>
          match DumpHotReloadStorage b3 with
          | (b4, Some e) => (b4, t1, Some e)
          | (b4, None) => WebInit b4 t1
          end
      | None => WebInit b3 t1
      end
  end.

End Methods.

(** ** A concrete wire format

    A byte-level codec for [HotReloadStorageItem] that instantiates
    [json_Encode] and [json_Decode] in the examples: a byte string is written
    as [x01 c] per byte [c] and closed by [x00]; an integer is written as a
    sign byte and the bits of its magnitude; an optional block starts with [x01], an absent one is
    [x00]. *)

Module Wire.

Fixpoint put_bytes (l : list byte) : list byte :=
  match l with
  | [] => [x00]
  | c :: l' => x01 :: c :: put_bytes l'
  end.

Fixpoint get_bytes (l : list byte) : option (list byte * list byte) :=
  match l with
  | [] => None
  | tag :: rest =>
      if Byte.eqb tag x00 then Some ([], rest)
      else
        match rest with
        | [] => None
        | c :: rest' =>
            match get_bytes rest' with
            | Some (s, r) => Some (c :: s, r)
            | None => None
            end
        end
  end.

Definition put_string (s : string) : list byte :=
  put_bytes (list_byte_of_string s).

Definition get_string (l : list byte) : option (string * list byte) :=
  match get_bytes l with
  | Some (bs, r) => Some (string_of_list_byte bs, r)
  | None => None
  end.

Fixpoint put_pos (p : positive) : list byte :=
  match p with
  | xH => [x00]
  | xO p' => x01 :: put_pos p'
  | xI p' => x02 :: put_pos p'
  end.

Fixpoint get_pos (l : list byte) : option (positive * list byte) :=
  match l with
  | [] => None
  | tag :: rest =>
      if Byte.eqb tag x00 then Some (xH, rest)
      else
        match get_pos rest with
        | Some (p, r) => Some (if Byte.eqb tag x01 then xO p else xI p, r)
        | None => None
        end
  end.

Definition put_Z (z : Z) : list byte :=
  match z with
  | Z0 => [x00]
  | Zpos p => x01 :: put_pos p
  | Zneg p => x02 :: put_pos p
  end.

Definition get_Z (l : list byte) : option (Z * list byte) :=
  match l with
  | [] => None
  | tag :: rest =>
      if Byte.eqb tag x00 then Some (Z0, rest)
      else
        match get_pos rest with
        | Some (p, r) => Some (if Byte.eqb tag x01 then Zpos p else Zneg p, r)
        | None => None
        end
  end.

Fixpoint put_jar (j : CookieJar) : list byte :=
  match j with
  | [] => [x00]
  | c :: j' => x01 :: put_string c ++ put_jar j'
  end.

Fixpoint get_jar (fuel : nat) (l : list byte) : option (CookieJar * list byte) :=
  match fuel with
  | O => None
  | S fuel' =>
      match l with
      | [] => None
      | tag :: rest =>
          if Byte.eqb tag x00 then Some ([], rest)
          else
            match get_string rest with
            | Some (c, r) =>
                match get_jar fuel' r with
                | Some (j, r') => Some (c :: j, r')
                | None => None
                end
            | None => None
            end
      end
  end.

Definition put_BaseRequest (o : option BaseRequest) : list byte :=
  match o with
  | None => [x00]
  | Some q =>
      x01 :: put_Z (Uin q) ++ put_string (Sid q) ++ put_string (Skey q)
          ++ put_string (DeviceID q)
  end.

Definition get_BaseRequest (l : list byte)
  : option (option BaseRequest * list byte) :=
  match l with
  | [] => None
  | tag :: rest =>
      if Byte.eqb tag x00 then Some (None, rest)
      else
        match get_Z rest with
        | Some (u, r1) =>
            match get_string r1 with
            | Some (s, r2) =>
                match get_string r2 with
                | Some (k, r3) =>
                    match get_string r3 with
                    | Some (d, r4) =>
                        Some (Some {| Uin := u; Sid := s; Skey := k;
                                      DeviceID := d |}, r4)
                    | None => None
                    end
                | None => None
                end
            | None => None
            end
        | None => None
        end
  end.

Definition put_LoginInfo (o : option LoginInfo) : list byte :=
  match o with
  | None => [x00]
  | Some i => x01 :: put_Z (WxUin i) ++ put_string (WxSid i) ++ put_string (SKey i)
  end.

Definition get_LoginInfo (l : list byte)
  : option (option LoginInfo * list byte) :=
  match l with
  | [] => None
  | tag :: rest =>
      if Byte.eqb tag x00 then Some (None, rest)
      else
        match get_Z rest with
        | Some (u, r1) =>
            match get_string r1 with
            | Some (s, r2) =>
                match get_string r2 with
                | Some (k, r3) =>
                    Some (Some {| WxUin := u; WxSid := s; SKey := k |}, r3)
                | None => None
                end
            | None => None
            end
        | None => None
        end
  end.

Definition encode (i : HotReloadStorageItem) : error + list byte :=
  inr (put_BaseRequest (item_BaseRequest i) ++ put_jar (item_Jar i)
       ++ put_LoginInfo (item_LoginInfo i) ++ put_string (item_WechatDomain i)
       ++ put_string (item_UUID i)).

Definition decode (l : list byte) : error + HotReloadStorageItem :=
  match get_BaseRequest l with
  | Some (q, r1) =>
      match get_jar (S (List.length r1)) r1 with
      | Some (j, r2) =>
          match get_LoginInfo r2 with
          | Some (i, r3) =>
              match get_string r3 with
              | Some (d, r4) =>
                  match get_string r4 with
                  | Some (u, _) =>
                      inr {| item_BaseRequest := q; item_Jar := j;
                             item_LoginInfo := i; item_WechatDomain := d;
                             item_UUID := u |}
                  | None => inl (errors_New "unexpected end of input")
                  end
              | None => inl (errors_New "unexpected end of input")
              end
          | None => inl (errors_New "unexpected end of input")
          end
      | None => inl (errors_New "unexpected end of input")
      end
  | None => inl (errors_New "unexpected end of input")
  end.

End Wire.

(** ** A concrete environment and concrete sessions *)

Module Sample.

Definition resp_Success (r : SyncCheckResponse) : bool := String.eqb (RetCode r) "0".

Definition resp_NorMal (r : SyncCheckResponse) : bool :=
  resp_Success r && String.eqb (Selector r) "0".

Definition resp_Err (r : SyncCheckResponse) : option error :=
  if resp_Success r then None
  else if String.eqb (RetCode r) "1100" then Some (RetError 1100%Z)
  else if String.eqb (RetCode r) "1101" then Some (RetError 1101%Z)
  else if String.eqb (RetCode r) "1102" then Some (RetError 1102%Z)
  else Some (errors_New "sync check unknown error").

Definition is_CallSyncCheck (e : event) : bool :=
  match e with CallSyncCheck _ _ _ => true | _ => false end.

(** The service: the first long-poll announces new messages, the second has
    nothing to report, from the third on the phone has logged the session
    out.  [logout_fails] tells whether the remote logout call errors. *)
Definition env (logout_fails : bool) : Env :=
  {| Caller_GetLoginInfo := fun _ _ =>
       inr {| WxUin := 42%Z; WxSid := "sid"; SKey := "skey" |};
     Caller_WebInit := fun _ _ =>
       inr {| init_User := "alice"; init_SyncKey := "k1" |};
     Caller_WebWxStatusNotify := fun _ _ _ _ => None;
     Caller_SyncCheck := fun t _ _ _ =>
       match List.length (filter is_CallSyncCheck t) with
       | 0 => inr {| RetCode := "0"; Selector := "2" |}
       | 1 => inr {| RetCode := "0"; Selector := "0" |}
       | _ => inr {| RetCode := "1100"; Selector := "0" |}
       end;
     Caller_WebWxSync := fun _ _ _ _ =>
       inr {| sync_SyncKey := "k2"; AddMsgList := ["m1"; "m2"] |};
     Caller_Logout := fun _ _ =>
       if logout_fails then Some (errors_New "connection reset") else None;
     GetRandomDeviceId := fun _ => "e123456789012345";
     DefaultCaller_Client := {| Domain := "wx.qq.com"; Jar := [] |};
     formatEmoji := fun u => u;
     Success := resp_Success;
     NorMal := resp_NorMal;
     Err := resp_Err;
     failedLoginCheck := 1101%Z;
     cookieInvalid := 1102%Z;
     failedLoginWarn := 1100%Z;
     json_Encode := Wire.encode;
     json_Decode := Wire.decode |}.

Definition info : LoginInfo := {| WxUin := 42%Z; WxSid := "sid"; SKey := "skey" |}.

Definition request : BaseRequest :=
  {| Uin := 42%Z; Sid := "sid"; Skey := "skey"; DeviceID := "e123456789012345" |}.

(** A session that is online: logged in, initialised, loop started, with a
    message handler and a heartbeat callback. *)
Definition online : Bot :=
  {| LogoutCallBack := false;
     SyncCheckCallback := true;
     MessageHandler := true;
     MessageErrorHandler := Some DefaultHandler;
     once := true;
     err := None;
     context_Done := false;
     Caller_Client := {| Domain := "wx.qq.com"; Jar := ["wxsid=sid"] |};
     self := Some "alice";
     bot_Storage :=
       {| Storage_LoginInfo := Some info;
          Storage_Request := Some request;
          Storage_Response :=
            Some {| init_User := "alice"; init_SyncKey := "k1" |} |};
     hotReloadStorage := Some [];
     uuid := "abc123";
     deviceId := "e123456789012345" |}.

(** The orchestrator of a new process that resumes from the bytes [content]. *)
Definition resuming (content : list byte) : Bot :=
  set_hotReloadStorage (Some content) (NewBot (env false)).

End Sample.

(** ** Runs of the orchestrator

    The operations a caller, a login strategy or the background task performs
    on one [Bot], as steps of a sequential run. *)

Inductive op : Type :=
| OpConfigure (logoutCallBack syncCheckCallback messageHandler : bool)
    (messageErrorHandler : option (error -> bool))
| OpSetDeviceId (d : string)
| OpSetHotReloadStorage (content : option (list byte))
| OpHandleLogin (data : list byte)
| OpWebInit
| OpReload
| OpDumpHotReloadStorage
| OpLogout
| OpExit
| OpInstallErrHandler               (* first statement of the background task *)
| OpSyncCheckBody                   (* one pass of syncCheck's loop *)
| OpMessageErrorHandler (e : error) (* b.MessageErrorHandler(e), b.err = e on stop *)
.

Definition configure (lc sc mh : bool) (eh : option (error -> bool)) (b : Bot)
  : Bot :=
  {| LogoutCallBack := lc;
     SyncCheckCallback := sc;
     MessageHandler := mh;
     MessageErrorHandler := option_map CustomHandler eh;
     once := once b;
     err := err b;
     context_Done := context_Done b;
     Caller_Client := Caller_Client b;
     self := self b;
     bot_Storage := bot_Storage b;
     hotReloadStorage := hotReloadStorage b;
     uuid := uuid b;
     deviceId := deviceId b |}.

Definition step (env : Env) (o : op) (s : Bot * trace) : Bot * trace :=
  let '(b, t) := s in
  match o with
  | OpConfigure lc sc mh eh => (configure lc sc mh eh b, t)
  | OpSetDeviceId d => (SetDeviceId d b, t)
  | OpSetHotReloadStorage c => (set_hotReloadStorage c b, t)
  | OpHandleLogin data => fst (HandleLogin env data b t)
  | OpWebInit => fst (WebInit env b t)
  | OpReload => (fst (reload env b), t)
  | OpDumpHotReloadStorage => (fst (DumpHotReloadStorage env b), t)
  | OpLogout => fst (Logout env b t)
  | OpExit => Exit b t
  | OpInstallErrHandler =>
      match MessageErrorHandler b with
      | None => (set_MessageErrorHandler (Some DefaultHandler) b, t)
      | Some _ => (b, t)
      end
  | OpSyncCheckBody => if Alive b then fst (syncCheck_body env b t) else (b, t)
  | OpMessageErrorHandler e =>
      match call_MessageErrorHandler env b t e with
      | (b1, t1, Returned false) => (set_err (Some e) b1, t1)
      | (b1, t1, _) => (b1, t1)
      end
  end.

Definition run (env : Env) (ops : list op) (s : Bot * trace) : Bot * trace :=
  fold_left (fun s o => step env o s) ops s.

Definition is_StartSyncLoop (e : event) : bool :=
  match e with StartSyncLoop => true | _ => false end.

(** How many times the background task has been started. *)
Definition loops_started (t : trace) : nat :=
  List.length (filter is_StartSyncLoop t).

Definition is_StoreSyncKey (e : event) : bool :=
  match e with StoreSyncKey _ => true | _ => false end.

(** How many times the sync cursor has been written. *)
Definition cursor_writes (t : trace) : nat :=
  List.length (filter is_StoreSyncKey t).

Definition is_Handle (e : event) : bool :=
  match e with Handle _ _ => true | _ => false end.

(** The lifecycle state [Exited]: cancellation fired, current user cleared. *)
Definition Exited (b : Bot) : Prop :=
  self b = None /\ context_Done b = true.

(** The codec reproduces every item accepted by [valid]. *)
Definition json_round_trip (env : Env) (valid : HotReloadStorageItem -> Prop)
  : Prop :=
  forall i, valid i ->
    exists bytes, json_Encode env i = inr bytes /\ json_Decode env bytes = inr i.

(** The default classifier's fatal errors: a [Ret] in the Unwrap chain that is
    one of the three codes of the [switch]. *)
Definition fatal (env : Env) (e : error) : Prop :=
  exists ret,
    errors_As_Ret e = Some ret /\
    (ret = failedLoginCheck env \/ ret = cookieInvalid env
     \/ ret = failedLoginWarn env).

(** The events of the long-poll step of one pass of [syncCheck]'s loop: the
    call, then the heartbeat when a callback is set. *)
Definition poll_events (b : Bot) (resp : SyncCheckResponse) : trace :=
  CallSyncCheck (Storage_Request (bot_Storage b))
    (Storage_LoginInfo (bot_Storage b)) (Storage_Response (bot_Storage b))
  :: (if SyncCheckCallback b then [HeartBeat resp] else []).

(** The events of the fetch step: the call, then the cursor write. *)
Definition fetch_events (b : Bot) (k : SyncKey) : trace :=
  [CallWebWxSync (Storage_Request (bot_Storage b))
     (Storage_Response (bot_Storage b)) (Storage_LoginInfo (bot_Storage b));
   StoreSyncKey k].

(** The handler calls for a batch, each seeing cursor [k]; none without a
    handler. *)
Definition handler_events (b : Bot) (k : SyncKey) (messages : list Message)
  : trace :=
  if MessageHandler b then map (fun m => Handle m (Some k)) messages else [].

(** The bot after [Response.SyncKey = k], [r0] being the init response held. *)
Definition with_SyncKey (k : SyncKey) (r0 : WebInitResponse) (b : Bot) : Bot :=
  set_Storage
    (set_Storage_Response
       (Some {| init_User := init_User r0; init_SyncKey := k |})
       (bot_Storage b)) b.

(** The guard and the number of started loops agree. *)
Definition guard_inv (s : Bot * trace) : Prop :=
  loops_started (snd s) = if once (fst s) then 1 else 0.

(** A step that neither touches the guard nor starts a loop. *)
Definition quiet (s s' : Bot * trace) : Prop :=
  once (fst s') = once (fst s) /\
  loops_started (snd s') = loops_started (snd s).

(** ** Login URL helpers *)


(** The command line [open] hands to [exec.Command], as a function of
    [runtime.GOOS]: the program and its arguments. *)
Definition open_Command (GOOS : string) (url : string) : string * list string :=
  let '(cmd, args) :=
    if String.eqb GOOS "windows" then ("cmd", ["/c"; "start"])
    else if String.eqb GOOS "darwin" then ("open", [])
    else ("xdg-open", []) in
  (cmd, args ++ [url]).

(** ** Auxiliary notions for the invariants *)

(** Replaying one event on a cursor value: a cursor write replaces it. *)
Definition replay_cursor (c : option SyncKey) (e : event) : option SyncKey :=
  match e with
  | StoreSyncKey k => Some k
  | _ => c
  end.

(** [b'] is [b] with nothing but the init response replaced. *)
Definition with_Response (resp : option WebInitResponse) (b : Bot) : Bot :=
  set_Storage (set_Storage_Response resp (bot_Storage b)) b.

(** The current user is the user of the init response held. *)
Definition self_from_Response (b : Bot) : Prop :=
  forall u, self b = Some u ->
    exists r, Storage_Response (bot_Storage b) = Some r /\ init_User r = u.

(** The error handler in place says "stop" on [e]. *)
Definition says_stop (env : Env) (b : Bot) (e : error) : Prop :=
  match MessageErrorHandler b with
  | Some (CustomHandler f) => f e = false
  | Some DefaultHandler => fatal env e
  | None => False
  end.

(** The request [HandleLogin] builds from the login info and a device id. *)
Definition request_of (info : LoginInfo) (device : string) : BaseRequest :=
  {| Uin := WxUin info; Sid := WxSid info; Skey := SKey info;
     DeviceID := device |}.

(** ** A service with faults *)

Module Faulty.

(** [Sample.env false] with chosen remote calls failing: the login-info
    exchange, the initialization, the status notification, the long-poll, the
    encoder. *)
Definition env (getinfo_fails init_fails notify_fails poll_fails
                encode_fails : bool) : Env :=
  let good := Sample.env false in
  {| Caller_GetLoginInfo := fun t data =>
       if getinfo_fails then inl (errors_New "bad login payload")
       else Caller_GetLoginInfo good t data;
     Caller_WebInit := fun t req =>
       if init_fails then inl (errors_New "connection refused")
       else Caller_WebInit good t req;
     Caller_WebWxStatusNotify := fun t req resp info =>
       if notify_fails then Some (errors_New "connection refused")
       else Caller_WebWxStatusNotify good t req resp info;
     Caller_SyncCheck := fun t req info resp =>
       if poll_fails then inl (errors_New "timeout")
       else Caller_SyncCheck good t req info resp;
     Caller_WebWxSync := Caller_WebWxSync good;
     Caller_Logout := Caller_Logout good;
     GetRandomDeviceId := GetRandomDeviceId good;
     DefaultCaller_Client := DefaultCaller_Client good;
     formatEmoji := formatEmoji good;
     Success := Success good;
     NorMal := NorMal good;
     Err := Err good;
     failedLoginCheck := failedLoginCheck good;
     cookieInvalid := cookieInvalid good;
     failedLoginWarn := failedLoginWarn good;
     json_Encode := fun i =>
       if encode_fails then inl (errors_New "unsupported value")
       else json_Encode good i;
     json_Decode := json_Decode good |}.

End Faulty.


(** * Properties *)

(** ** Liveness test and teardown *)

Lemma Alive_false_iff (b : Bot) :
  Alive b = false <-> self b = None \/ context_Done b = true.
Proof.
  unfold Alive. destruct (self b); destruct (context_Done b); split;
    intros H; auto; try discriminate; destruct H; discriminate.
Qed.

Lemma Exit_Exited (b : Bot) (t : trace) : Exited (fst (Exit b t)).
Proof. unfold Exit, Exited. simpl. split; reflexivity. Qed.

Lemma Exited_not_Alive (b : Bot) : Exited b -> Alive b = false.
Proof. intros [H _]. apply Alive_false_iff. left; exact H. Qed.

Lemma Logout_not_alive (env : Env) (b : Bot) (t : trace) :
  Alive b = false ->
  Logout env b t = (b, t, Some (errors_New "user not login")).
Proof. intros H. unfold Logout. rewrite H. reflexivity. Qed.

(** A successful remote logout is followed by [Exit]. *)
Lemma Logout_remote_ok (env : Env) (b : Bot) (t : trace) :
  Alive b = true ->
  Caller_Logout env t (Storage_LoginInfo (bot_Storage b)) = None ->
  Logout env b t =
    (fst (Exit b (t ++ [CallLogout (Storage_LoginInfo (bot_Storage b))])),
     snd (Exit b (t ++ [CallLogout (Storage_LoginInfo (bot_Storage b))])),
     None).
Proof. intros Ha Hc. unfold Logout. rewrite Ha, Hc. reflexivity. Qed.

(** A failed remote logout returns before [Exit]: the bot is left as it was. *)
Lemma Logout_remote_error (env : Env) (b : Bot) (t : trace) (e : error) :
  Alive b = true ->
  Caller_Logout env t (Storage_LoginInfo (bot_Storage b)) = Some e ->
  Logout env b t =
    (b, t ++ [CallLogout (Storage_LoginInfo (bot_Storage b))], Some e).
Proof. intros Ha Hc. unfold Logout. rewrite Ha, Hc. reflexivity. Qed.

(** The remote logout call is made only by a live session. *)
Lemma Logout_calls_only_when_alive (env : Env) (b : Bot) (t : trace) :
  snd (fst (Logout env b t)) <> t -> Alive b = true.
Proof.
  intros H. destruct (Alive b) eqn:Ha; [reflexivity|].
  rewrite (Logout_not_alive env b t Ha) in H. simpl in H. congruence.
Qed.

(** ** The default classifier *)

Lemma fatal_dec (env : Env) (ret : Ret) :
  ((ret =? failedLoginCheck env)%Z || (ret =? cookieInvalid env)%Z
   || (ret =? failedLoginWarn env)%Z) = true <->
  (ret = failedLoginCheck env \/ ret = cookieInvalid env
   \/ ret = failedLoginWarn env).
Proof.
  rewrite !orb_true_iff, !Z.eqb_eq. tauto.
Qed.

Lemma defaultSyncCheckErrHandler_goon (env : Env) (bot : Bot) (t : trace)
    (e : error) :
  snd (defaultSyncCheckErrHandler env bot t e) =
    match errors_As_Ret e with
    | Some ret =>
        negb ((ret =? failedLoginCheck env)%Z || (ret =? cookieInvalid env)%Z
              || (ret =? failedLoginWarn env)%Z)
    | None => true
    end.
Proof.
  unfold defaultSyncCheckErrHandler.
  destruct (errors_As_Ret e) as [ret|]; [|reflexivity].
  destruct ((ret =? failedLoginCheck env)%Z || (ret =? cookieInvalid env)%Z
            || (ret =? failedLoginWarn env)%Z); [|reflexivity].
  destruct (Logout env bot t) as [[b1 t1] r]. reflexivity.
Qed.

Lemma defaultSyncCheckErrHandler_stop_iff (env : Env) (bot : Bot) (t : trace)
    (e : error) :
  snd (defaultSyncCheckErrHandler env bot t e) = false <-> fatal env e.
Proof.
  rewrite defaultSyncCheckErrHandler_goon. unfold fatal.
  destruct (errors_As_Ret e) as [ret|].
  - rewrite negb_false_iff, fatal_dec. split.
    + intros H. exists ret. split; [reflexivity | exact H].
    + intros [r [Hr H]]. inversion Hr; subst. exact H.
  - split; [discriminate|]. intros [r [Hr _]]. discriminate.
Qed.

(** C6: the boolean returned by the default classifier depends on the error
    value only; it is "stop" ([false]) exactly for an error carrying one of
    [failedLoginCheck], [cookieInvalid], [failedLoginWarn], and "continue"
    ([true]) for every other error, plain transport errors included. *)
Theorem C6_default_classifier_exact (env : Env) :
  (forall bot t e,
     snd (defaultSyncCheckErrHandler env bot t e) = false <-> fatal env e) /\
  (forall bot t e,
     snd (defaultSyncCheckErrHandler env bot t e) = true <-> ~ fatal env e) /\
  (forall bot t (r : Ret),
     snd (defaultSyncCheckErrHandler env bot t (RetError r)) = false <->
     (r = failedLoginCheck env \/ r = cookieInvalid env
      \/ r = failedLoginWarn env)) /\
  (forall bot t msg,
     snd (defaultSyncCheckErrHandler env bot t (errors_New msg)) = true) /\
  (forall bot1 t1 bot2 t2 e,
     snd (defaultSyncCheckErrHandler env bot1 t1 e) =
     snd (defaultSyncCheckErrHandler env bot2 t2 e)).
Proof.
  split; [|split; [|split; [|split]]].
  - intros bot t e. apply defaultSyncCheckErrHandler_stop_iff.
  - intros bot t e. split.
    + intros H Hf.
      apply (defaultSyncCheckErrHandler_stop_iff env bot t e) in Hf.
      congruence.
    + intros H.
      destruct (snd (defaultSyncCheckErrHandler env bot t e)) eqn:E;
        [reflexivity|].
      exfalso. apply H.
      apply (defaultSyncCheckErrHandler_stop_iff env bot t e). exact E.
  - intros bot t r. split.
    + intros H. apply defaultSyncCheckErrHandler_stop_iff in H.
      destruct H as [ret [Hr H]]. simpl in Hr. inversion Hr; subst. exact H.
    + intros H. apply defaultSyncCheckErrHandler_stop_iff.
      exists r. split; [reflexivity | exact H].
  - intros bot t msg. rewrite defaultSyncCheckErrHandler_goon. reflexivity.
  - intros. rewrite !defaultSyncCheckErrHandler_goon. reflexivity.
Qed.

(** ** Lifecycle guards *)

(** C9: [Logout] on a session that is not alive (no current user, or context
    cancelled) returns the usage error, leaves the bot untouched and adds no
    event to the trace, so no transport call is made. *)
Theorem C9_logout_requires_alive (env : Env) (b : Bot) (t : trace) :
  self b = None \/ context_Done b = true ->
  Logout env b t = (b, t, Some (errors_New "user not login")).
Proof.
  intros H. apply Logout_not_alive. apply Alive_false_iff. exact H.
Qed.

Lemma C9_logout_requires_alive_witness :
  (self (NewBot (Sample.env false)) = None
   \/ context_Done (NewBot (Sample.env false)) = true) /\
  Logout (Sample.env false) (NewBot (Sample.env false)) [] =
    (NewBot (Sample.env false), [], Some (errors_New "user not login")).
Proof.
  split.
  - left. reflexivity.
  - apply (C9_logout_requires_alive (Sample.env false)
             (NewBot (Sample.env false)) []).
    left. reflexivity.
Defined.

(** C10: after [Exit] the current user is nil, so [Block] returns the
    must-be-called-after-login error although the context is cancelled; it
    does not return nil. *)
Theorem C10_block_after_exit_errors (b : Bot) (t : trace) :
  context_Done (fst (Exit b t)) = true /\
  Block (fst (Exit b t)) =
    BlockReturns (Some (errors_New "`Block` must be called after user login")).
Proof. unfold Exit, Block. simpl. split; reflexivity. Qed.

(** ** The concrete wire format round-trips *)

Lemma Wire_get_bytes_put_bytes (l rest : list byte) :
  Wire.get_bytes (Wire.put_bytes l ++ rest) = Some (l, rest).
Proof.
  induction l as [|c l IH]; simpl.
  - reflexivity.
  - rewrite IH. reflexivity.
Qed.

Lemma Wire_get_string_put_string (s : string) (rest : list byte) :
  Wire.get_string (Wire.put_string s ++ rest) = Some (s, rest).
Proof.
  unfold Wire.get_string, Wire.put_string.
  rewrite Wire_get_bytes_put_bytes, string_of_list_byte_of_string.
  reflexivity.
Qed.

Lemma Wire_get_pos_put_pos (p : positive) (rest : list byte) :
  Wire.get_pos (Wire.put_pos p ++ rest) = Some (p, rest).
Proof.
  induction p as [p IH|p IH|]; simpl; try rewrite IH; reflexivity.
Qed.

Lemma Wire_get_Z_put_Z (z : Z) (rest : list byte) :
  Wire.get_Z (Wire.put_Z z ++ rest) = Some (z, rest).
Proof.
  destruct z; simpl; try rewrite Wire_get_pos_put_pos; reflexivity.
Qed.

Lemma Wire_get_jar_put_jar (j : CookieJar) (rest : list byte) (fuel : nat) :
  List.length j < fuel ->
  Wire.get_jar fuel (Wire.put_jar j ++ rest) = Some (j, rest).
Proof.
  revert fuel. induction j as [|c j IH]; intros fuel Hf.
  - destruct fuel; [inversion Hf|]. reflexivity.
  - destruct fuel; [inversion Hf|]. simpl in Hf.
    cbn [Wire.put_jar Wire.get_jar app]. 
    change (Byte.eqb x01 x00) with false. cbv iota.
    rewrite <- app_assoc, Wire_get_string_put_string.
    rewrite IH by lia. reflexivity.
Qed.

Lemma Wire_put_jar_length (j : CookieJar) :
  List.length j < List.length (Wire.put_jar j).
Proof.
  induction j as [|c j IH]; simpl.
  - lia.
  - rewrite length_app. lia.
Qed.

Lemma Wire_get_BaseRequest_put (o : option BaseRequest) (rest : list byte) :
  Wire.get_BaseRequest (Wire.put_BaseRequest o ++ rest) = Some (o, rest).
Proof.
  destruct o as [[u s k d]|]; [|reflexivity].
  cbn [Wire.put_BaseRequest Wire.get_BaseRequest app Uin Sid Skey DeviceID].
  change (Byte.eqb x01 x00) with false. cbv iota.
  rewrite <- !app_assoc.
  rewrite Wire_get_Z_put_Z, !Wire_get_string_put_string. reflexivity.
Qed.

Lemma Wire_get_LoginInfo_put (o : option LoginInfo) (rest : list byte) :
  Wire.get_LoginInfo (Wire.put_LoginInfo o ++ rest) = Some (o, rest).
Proof.
  destruct o as [[u s k]|]; [|reflexivity].
  cbn [Wire.put_LoginInfo Wire.get_LoginInfo app WxUin WxSid SKey].
  change (Byte.eqb x01 x00) with false. cbv iota.
  rewrite <- !app_assoc.
  rewrite Wire_get_Z_put_Z, !Wire_get_string_put_string. reflexivity.
Qed.

(** Decoding what [Wire.encode] wrote gives the item back, for every item. *)
Lemma Wire_round_trip (logout_fails : bool) :
  json_round_trip (Sample.env logout_fails) (fun _ => True).
Proof.
  intros [q j i d u] _. eexists. split; [reflexivity|].
  unfold Sample.env. cbn [json_Decode]. unfold Wire.decode.
  cbn [item_BaseRequest item_Jar item_LoginInfo item_WechatDomain item_UUID].
  rewrite Wire_get_BaseRequest_put.
  rewrite Wire_get_jar_put_jar.
  - rewrite Wire_get_LoginInfo_put, Wire_get_string_put_string.
    rewrite <- (app_nil_r (Wire.put_string u)), Wire_get_string_put_string.
    reflexivity.
  - rewrite length_app. pose proof (Wire_put_jar_length j). lia.
Qed.

(** ** Teardown on a fatal classification *)

(** When the remote logout call succeeds, a fatal classification on a live
    session ends in [Exited]. *)
Lemma fatal_teardown_remote_ok (env : Env) (bot : Bot) (t : trace) (e : error) :
  fatal env e ->
  Alive bot = true ->
  Caller_Logout env t (Storage_LoginInfo (bot_Storage bot)) = None ->
  snd (defaultSyncCheckErrHandler env bot t e) = false /\
  Exited (fst (fst (defaultSyncCheckErrHandler env bot t e))).
Proof.
  intros Hf Ha Hc. split.
  - apply defaultSyncCheckErrHandler_stop_iff. exact Hf.
  - destruct Hf as [ret [Hr Hret]]. apply fatal_dec in Hret.
    unfold defaultSyncCheckErrHandler. rewrite Hr, Hret.
    rewrite (Logout_remote_ok env bot t Ha Hc). simpl. split; reflexivity.
Qed.

(** When the remote logout call errors, [Logout] returns before [Exit]: the
    classifier still answers "stop", and the bot is exactly as before. *)
Lemma fatal_teardown_remote_error (env : Env) (bot : Bot) (t : trace)
    (e e' : error) :
  fatal env e ->
  Alive bot = true ->
  Caller_Logout env t (Storage_LoginInfo (bot_Storage bot)) = Some e' ->
  defaultSyncCheckErrHandler env bot t e =
    (bot, t ++ [CallLogout (Storage_LoginInfo (bot_Storage bot))], false).
Proof.
  intros [ret [Hr Hret]] Ha Hc. apply fatal_dec in Hret.
  unfold defaultSyncCheckErrHandler. rewrite Hr, Hret.
  rewrite (Logout_remote_error env bot t e' Ha Hc). reflexivity.
Qed.

(** C1: on the online sample session, with a service whose logout call
    errors, the remote-logout code [failedLoginWarn] is classified "stop" but
    the bot is left untouched: it is not [Exited], it is still alive and
    [Block] keeps waiting.  The background task itself ends with that error
    as crash reason, and the session is still not [Exited]. *)
Theorem C1_fatal_stop_without_exit_when_remote_logout_fails :
  let r :=
    defaultSyncCheckErrHandler (Sample.env true) Sample.online []
      (RetError 1100%Z) in
  snd r = false /\
  fst (fst r) = Sample.online /\
  ~ Exited (fst (fst r)) /\
  Alive (fst (fst r)) = true /\
  Block (fst (fst r)) = BlockWaits /\
  exists b' t',
    listen (Sample.env true) 5 Sample.online [] = Some (b', t', Returned tt) /\
    CrashReason b' = Some (RetError 1100%Z) /\
    ~ Exited b' /\
    Block b' = BlockWaits.
Proof.
  cbv zeta.
  assert (Hne : forall b, self b = Some "alice" -> ~ Exited b).
  { intros b Hs [Hn _]. congruence. }
  split; [reflexivity|].
  split; [reflexivity|].
  split; [apply Hne; reflexivity|].
  split; [reflexivity|].
  split; [reflexivity|].
  eexists. eexists.
  split; [vm_compute; reflexivity|].
  split; [reflexivity|].
  split; [apply Hne; reflexivity|].
  reflexivity.
Qed.

(** ** The background task after cancellation *)

Lemma syncCheck_not_alive (env : Env) (n : nat) (b : Bot) (t : trace) :
  Alive b = false ->
  syncCheck env (S n) b t = Some (b, t, Returned None).
Proof. intros H. simpl. rewrite H. reflexivity. Qed.

(** With the session not alive, a pass of the outer loop changes nothing and
    goes round again. *)
Lemma listen_body_not_alive (env : Env) (n : nat) (b : Bot) (t : trace) :
  Alive b = false ->
  listen_body env (S n) b t = Some (b, t, Continue).
Proof.
  intros H. unfold listen_body. rewrite (syncCheck_not_alive env n b t H).
  reflexivity.
Qed.

Lemma listen_loop_not_alive (env : Env) (fuel : nat) (b : Bot) (t : trace) :
  Alive b = false ->
  listen_loop env fuel b t = None.
Proof.
  intros H. induction fuel as [|n IH]; [reflexivity|].
  cbn [listen_loop]. destruct n as [|m].
  - reflexivity.
  - rewrite (listen_body_not_alive env m b t H). exact IH.
Qed.

(** Once the session is not alive the background task never leaves its loop,
    whatever the number of loop heads allowed. *)
Lemma listen_not_alive (env : Env) (fuel : nat) (b : Bot) (t : trace) :
  Alive b = false ->
  listen env fuel b t = None.
Proof.
  intros H. unfold listen. apply listen_loop_not_alive.
  destruct (MessageErrorHandler b); exact H.
Qed.

(** C3: after [Exit] on the online sample session, [syncCheck] returns nil at
    once, the outer loop of the background task takes that as "continue" with
    the state unchanged, and the task never reaches its [break]. *)
Theorem C3_background_task_spins_after_cancellation :
  let exited := fst (Exit Sample.online []) in
  Exited exited /\
  (forall n t,
     syncCheck (Sample.env false) (S n) exited t =
       Some (exited, t, Returned None)) /\
  (forall n t,
     listen_body (Sample.env false) (S n) exited t =
       Some (exited, t, Continue)) /\
  (forall fuel t, listen (Sample.env false) fuel exited t = None).
Proof.
  cbv zeta.
  assert (Ha : Alive (fst (Exit Sample.online [])) = false) by reflexivity.
  split; [apply Exit_Exited|].
  split; [intros; apply syncCheck_not_alive; exact Ha|].
  split; [intros; apply listen_body_not_alive; exact Ha|].
  intros; apply listen_not_alive; exact Ha.
Qed.

(** ** Persisting and resuming *)

Lemma DumpTo_encoded (env : Env) (b : Bot) (writer bytes : list byte) :
  json_Encode env (DumpTo_item b) = inr bytes ->
  DumpTo env b writer = (writer ++ bytes, None).
Proof. intros H. unfold DumpTo. rewrite H. reflexivity. Qed.

Lemma reload_decoded (env : Env) (b : Bot) (content : list byte)
    (item : HotReloadStorageItem) :
  hotReloadStorage b = Some content ->
  json_Decode env content = inr item ->
  snd (reload env b) = None /\
  Storage_Request (bot_Storage (fst (reload env b))) = item_BaseRequest item /\
  Storage_LoginInfo (bot_Storage (fst (reload env b))) = item_LoginInfo item /\
  Domain (Caller_Client (fst (reload env b))) = item_WechatDomain item /\
  Jar (Caller_Client (fst (reload env b))) = item_Jar item /\
  uuid (fst (reload env b)) = item_UUID item /\
  Storage_Response (bot_Storage (fst (reload env b))) =
    Storage_Response (bot_Storage b) /\
  self (fst (reload env b)) = self b /\
  context_Done (fst (reload env b)) = context_Done b /\
  once (fst (reload env b)) = once b.
Proof.
  intros Hs Hd. unfold reload. rewrite Hs, Hd. simpl.
  repeat split; reflexivity.
Qed.

(** [reload] never touches the init response, hence never the cursor, nor the
    start-once guard. *)
Lemma reload_keeps (env : Env) (b : Bot) :
  Storage_Response (bot_Storage (fst (reload env b))) =
    Storage_Response (bot_Storage b) /\
  once (fst (reload env b)) = once b.
Proof.
  unfold reload. destruct (hotReloadStorage b) as [content|]; [|split; reflexivity].
  destruct (json_Decode env content); split; reflexivity.
Qed.

(** The result of [WebInit] when both remote exchanges succeed. *)
Lemma WebInit_success (env : Env) (b : Bot) (t : trace) (resp0 : WebInitResponse) :
  let req := Storage_Request (bot_Storage b) in
  let info := Storage_LoginInfo (bot_Storage b) in
  let resp :=
    {| init_User := formatEmoji env (init_User resp0);
       init_SyncKey := init_SyncKey resp0 |} in
  Caller_WebInit env t req = inr resp0 ->
  Caller_WebWxStatusNotify env (t ++ [CallWebInit req]) req resp info = None ->
  snd (WebInit env b t) = None /\
  snd (fst (WebInit env b t)) =
    t ++ [CallWebInit req] ++ [CallWebWxStatusNotify req resp info]
      ++ (if once b then [] else [StartSyncLoop]) /\
  self (fst (fst (WebInit env b t))) = Some (init_User resp) /\
  context_Done (fst (fst (WebInit env b t))) = context_Done b /\
  once (fst (fst (WebInit env b t))) = true /\
  bot_Storage (fst (fst (WebInit env b t))) =
    set_Storage_Response (Some resp) (bot_Storage b) /\
  SyncCheckCallback (fst (fst (WebInit env b t))) = SyncCheckCallback b.
Proof.
  intros req info resp H1 H2. unfold WebInit.
  fold req. fold info. rewrite H1. fold resp. rewrite H2.
  unfold go_once_Do. cbn [once set_Storage set_self].
  destruct (once b) eqn:Ho; cbn; rewrite <- ?app_assoc, ?Ho;
    repeat split; reflexivity.
Qed.

(** The first event of a pass of [syncCheck]'s loop is the long-poll, issued
    with the request, login info and init response of the session state. *)
Lemma syncCheck_body_polls_first (env : Env) (b : Bot) (t : trace) :
  exists rest,
    snd (fst (syncCheck_body env b t)) =
      t ++ CallSyncCheck (Storage_Request (bot_Storage b))
             (Storage_LoginInfo (bot_Storage b))
             (Storage_Response (bot_Storage b)) :: rest.
Proof.
  unfold syncCheck_body, syncMessage.
  destruct (Caller_SyncCheck env t _ _ _) as [e|resp].
  - exists []. reflexivity.
  - destruct (SyncCheckCallback b); cbn [negb];
      destruct (Success env resp); cbn [negb];
      try (eexists; cbn [fst snd]; rewrite <- ?app_assoc; reflexivity);
      destruct (NorMal env resp); cbn [negb];
      try (eexists; cbn [fst snd]; rewrite <- ?app_assoc; reflexivity);
      destruct (Caller_WebWxSync env _ _ _ _) as [e|r];
      try (eexists; cbn [fst snd]; rewrite <- ?app_assoc; reflexivity);
      destruct (Storage_Response (bot_Storage b)) as [r0|];
      try (eexists; cbn [fst snd]; rewrite <- ?app_assoc; reflexivity);
      match goal with
      | |- context [MessageHandler ?x] => destruct (MessageHandler x)
      end;
      eexists; cbn [fst snd]; rewrite <- ?app_assoc; reflexivity.
Qed.

(** C2, as stated, fails: the online sample session has cursor [k1]; its
    snapshot decodes without error into a new orchestrator, whose cursor is
    absent.  A session differing only in its cursor writes the same bytes. *)
Lemma C2_cursor_not_in_snapshot :
  exists bytes b',
    DumpTo (Sample.env false) Sample.online [] = (bytes, None) /\
    reload (Sample.env false) (Sample.resuming bytes) = (b', None) /\
    cursor Sample.online = Some "k1" /\
    cursor b' = None /\
    DumpTo (Sample.env false)
      (set_Storage
         (set_Storage_Response
            (Some {| init_User := "alice"; init_SyncKey := "k9" |})
            (bot_Storage Sample.online)) Sample.online) [] = (bytes, None).
Proof.
  eexists. eexists.
  split; [vm_compute; reflexivity|].
  split; [vm_compute; reflexivity|].
  split; [reflexivity|].
  split; reflexivity.
Qed.

(** C2, amended: what [DumpTo] writes is the encoding of the item made of
    the request credentials, the cookie jar, the login info, the domain and
    the UUID of the bot, appended to the writer; it does not depend on
    [Storage.Response], so the snapshot carries no cursor; [reload] leaves
    the cursor of the reloading orchestrator as it was; the cursor of a
    session is the one [WebInit] stores from the initialization response. *)
Theorem C2_snapshot_has_credentials_not_cursor (env : Env) :
  (forall b writer,
     DumpTo env b writer =
       match
         json_Encode env
           {| item_BaseRequest := Storage_Request (bot_Storage b);
              item_Jar := Jar (Caller_Client b);
              item_LoginInfo := Storage_LoginInfo (bot_Storage b);
              item_WechatDomain := Domain (Caller_Client b);
              item_UUID := uuid b |}
       with
       | inl e => (writer, Some e)
       | inr bytes => (writer ++ bytes, None)
       end) /\
  (forall b resp writer,
     DumpTo env
       (set_Storage (set_Storage_Response resp (bot_Storage b)) b) writer =
     DumpTo env b writer) /\
  (forall b, cursor (fst (reload env b)) = cursor b) /\
  (forall b t,
     match Caller_WebInit env t (Storage_Request (bot_Storage b)) with
     | inr resp0 =>
         cursor (fst (fst (WebInit env b t))) = Some (init_SyncKey resp0)
     | inl _ => cursor (fst (fst (WebInit env b t))) = cursor b
     end).
Proof.
  split; [|split; [|split]].
  - intros b writer. unfold DumpTo, DumpTo_item.
    destruct (json_Encode env _); reflexivity.
  - intros b resp writer. reflexivity.
  - intros b. unfold cursor. destruct (reload_keeps env b) as [H _].
    rewrite H. reflexivity.
  - intros b t. unfold WebInit.
    destruct (Caller_WebInit env t _) as [e|resp0]; [reflexivity|].
    destruct (Caller_WebWxStatusNotify env _ _ _ _); [reflexivity|].
    unfold go_once_Do. cbn [once set_Storage set_self].
    destruct (once b); reflexivity.
Qed.

(** C8: if the codec reproduces the item [DumpTo] builds, then [DumpTo]
    followed by [reload] in any orchestrator [b0] gives back the request
    credentials, the login info, the domain and the UUID (and the cookie
    jar).  Resuming needs no login handshake: [WebInit] on the reloaded bot
    issues only the initialization and the status notification, with the
    restored credentials, and when the service accepts them the session is
    alive and the next long-poll carries the restored request and login
    info. *)
Theorem C8_dump_reload_round_trip (env : Env)
    (valid : HotReloadStorageItem -> Prop) (b b0 : Bot) :
  json_round_trip env valid ->
  valid (DumpTo_item b) ->
  exists bytes,
    DumpTo env b [] = (bytes, None) /\
    let r := reload env (set_hotReloadStorage (Some bytes) b0) in
    snd r = None /\
    Storage_Request (bot_Storage (fst r)) = Storage_Request (bot_Storage b) /\
    Storage_LoginInfo (bot_Storage (fst r)) =
      Storage_LoginInfo (bot_Storage b) /\
    Domain (Caller_Client (fst r)) = Domain (Caller_Client b) /\
    UUID (fst r) = UUID b /\
    Jar (Caller_Client (fst r)) = Jar (Caller_Client b) /\
    forall t resp0,
      let req := Storage_Request (bot_Storage b) in
      let info := Storage_LoginInfo (bot_Storage b) in
      let resp :=
        {| init_User := formatEmoji env (init_User resp0);
           init_SyncKey := init_SyncKey resp0 |} in
      context_Done b0 = false ->
      Caller_WebInit env t req = inr resp0 ->
      Caller_WebWxStatusNotify env (t ++ [CallWebInit req]) req resp info
        = None ->
      let w := WebInit env (fst r) t in
      snd w = None /\
      snd (fst w) =
        t ++ [CallWebInit req] ++ [CallWebWxStatusNotify req resp info]
          ++ (if once b0 then [] else [StartSyncLoop]) /\
      Alive (fst (fst w)) = true /\
      exists rest,
        snd (fst (syncCheck_body env (fst (fst w)) (snd (fst w)))) =
          snd (fst w) ++ CallSyncCheck req info (Some resp) :: rest.
Proof.
  intros Hrt Hv. destruct (Hrt _ Hv) as [bytes [He Hd]].
  exists bytes. split; [apply (DumpTo_encoded env b [] bytes He)|].
  cbv zeta.
  destruct (reload_decoded env (set_hotReloadStorage (Some bytes) b0) bytes
              (DumpTo_item b) eq_refl Hd)
    as [R0 [R1 [R2 [R3 [R4 [R5 [R6 [R7 [R8 R9]]]]]]]]].
  split; [exact R0|]. split; [exact R1|]. split; [exact R2|].
  split; [exact R3|]. split; [exact R5|]. split; [exact R4|].
  intros t resp0 Hc H1 H2.
  set (b1 := fst (reload env (set_hotReloadStorage (Some bytes) b0))) in *.
  cbn [DumpTo_item item_BaseRequest item_LoginInfo] in R1, R2.
  assert (H1' : Caller_WebInit env t (Storage_Request (bot_Storage b1))
                = inr resp0) by (rewrite R1; exact H1).
  assert (H2' : Caller_WebWxStatusNotify env
                  (t ++ [CallWebInit (Storage_Request (bot_Storage b1))])
                  (Storage_Request (bot_Storage b1))
                  {| init_User := formatEmoji env (init_User resp0);
                     init_SyncKey := init_SyncKey resp0 |}
                  (Storage_LoginInfo (bot_Storage b1)) = None)
    by (rewrite R1, R2; exact H2).
  destruct (WebInit_success env b1 t resp0 H1' H2')
    as [W0 [W1 [W2 [W3 [W4 [W5 W6]]]]]].
  split; [exact W0|].
  split. { rewrite W1, R1, R2, R9. reflexivity. }
  split. { unfold Alive. rewrite W2, W3, R8. cbn [set_hotReloadStorage context_Done].
           rewrite Hc. reflexivity. }
  destruct (syncCheck_body_polls_first env (fst (fst (WebInit env b1 t)))
              (snd (fst (WebInit env b1 t)))) as [rest Hrest].
  exists rest. rewrite Hrest, W5. cbn [set_Storage_Response Storage_Request
    Storage_LoginInfo Storage_Response]. rewrite R1, R2. reflexivity.
Qed.

Lemma C8_dump_reload_round_trip_witness :
  exists bytes,
    DumpTo (Sample.env false) Sample.online [] = (bytes, None) /\
    Storage_Request (bot_Storage
      (fst (reload (Sample.env false) (Sample.resuming bytes)))) =
      Some Sample.request /\
    Storage_LoginInfo (bot_Storage
      (fst (reload (Sample.env false) (Sample.resuming bytes)))) =
      Some Sample.info /\
    Domain (Caller_Client
      (fst (reload (Sample.env false) (Sample.resuming bytes)))) =
      "wx.qq.com" /\
    UUID (fst (reload (Sample.env false) (Sample.resuming bytes))) = "abc123".
Proof.
  destruct (C8_dump_reload_round_trip (Sample.env false) (fun _ => True)
              Sample.online (NewBot (Sample.env false))
              (Wire_round_trip false) I)
    as [bytes [Hd [_ [H1 [H2 [H3 [H4 _]]]]]]].
  exists bytes. split; [exact Hd|].
  split; [exact H1|]. split; [exact H2|]. split; [exact H3|]. exact H4.
Defined.

(** ** One pass of the long-poll loop *)

Lemma syncCheck_body_transport_error (env : Env) (b : Bot) (t : trace)
    (e : error) :
  Caller_SyncCheck env t (Storage_Request (bot_Storage b))
    (Storage_LoginInfo (bot_Storage b)) (Storage_Response (bot_Storage b))
    = inl e ->
  syncCheck_body env b t =
    (b, t ++ [CallSyncCheck (Storage_Request (bot_Storage b))
                (Storage_LoginInfo (bot_Storage b))
                (Storage_Response (bot_Storage b))], Returned (Some e)).
Proof. intros H. unfold syncCheck_body. rewrite H. reflexivity. Qed.

Lemma syncCheck_body_polled (b : Bot) (t : trace) (resp : SyncCheckResponse) :
  (if SyncCheckCallback b
   then (t ++ [CallSyncCheck (Storage_Request (bot_Storage b))
                 (Storage_LoginInfo (bot_Storage b))
                 (Storage_Response (bot_Storage b))]) ++ [HeartBeat resp]
   else t ++ [CallSyncCheck (Storage_Request (bot_Storage b))
                (Storage_LoginInfo (bot_Storage b))
                (Storage_Response (bot_Storage b))])
  = t ++ poll_events b resp.
Proof.
  unfold poll_events. destruct (SyncCheckCallback b).
  - rewrite <- app_assoc. reflexivity.
  - reflexivity.
Qed.

Lemma syncCheck_body_status_error (env : Env) (b : Bot) (t : trace)
    (resp : SyncCheckResponse) :
  Caller_SyncCheck env t (Storage_Request (bot_Storage b))
    (Storage_LoginInfo (bot_Storage b)) (Storage_Response (bot_Storage b))
    = inr resp ->
  Success env resp = false ->
  syncCheck_body env b t = (b, t ++ poll_events b resp, Returned (Err env resp)).
Proof.
  intros H Hs. unfold syncCheck_body. rewrite H, Hs. cbn [negb].
  rewrite syncCheck_body_polled. reflexivity.
Qed.

Lemma syncCheck_body_normal (env : Env) (b : Bot) (t : trace)
    (resp : SyncCheckResponse) :
  Caller_SyncCheck env t (Storage_Request (bot_Storage b))
    (Storage_LoginInfo (bot_Storage b)) (Storage_Response (bot_Storage b))
    = inr resp ->
  Success env resp = true ->
  NorMal env resp = true ->
  syncCheck_body env b t = (b, t ++ poll_events b resp, Continue).
Proof.
  intros H Hs Hn. unfold syncCheck_body. rewrite H, Hs, Hn. cbn [negb].
  rewrite syncCheck_body_polled. reflexivity.
Qed.

Lemma syncCheck_body_fetch_error (env : Env) (b : Bot) (t : trace)
    (resp : SyncCheckResponse) (e : error) :
  Caller_SyncCheck env t (Storage_Request (bot_Storage b))
    (Storage_LoginInfo (bot_Storage b)) (Storage_Response (bot_Storage b))
    = inr resp ->
  Success env resp = true ->
  NorMal env resp = false ->
  Caller_WebWxSync env (t ++ poll_events b resp)
    (Storage_Request (bot_Storage b)) (Storage_Response (bot_Storage b))
    (Storage_LoginInfo (bot_Storage b)) = inl e ->
  syncCheck_body env b t =
    (b,
     t ++ poll_events b resp
       ++ [CallWebWxSync (Storage_Request (bot_Storage b))
             (Storage_Response (bot_Storage b))
             (Storage_LoginInfo (bot_Storage b))],
     Returned (Some e)).
Proof.
  intros H Hs Hn Hf. unfold syncCheck_body. rewrite H, Hs, Hn. cbn [negb].
  rewrite syncCheck_body_polled. unfold syncMessage. rewrite Hf.
  rewrite <- app_assoc. reflexivity.
Qed.

Lemma syncCheck_body_fetch (env : Env) (b : Bot) (t : trace)
    (resp : SyncCheckResponse) (r0 : WebInitResponse) (r : WebWxSyncResponse) :
  Caller_SyncCheck env t (Storage_Request (bot_Storage b))
    (Storage_LoginInfo (bot_Storage b)) (Storage_Response (bot_Storage b))
    = inr resp ->
  Success env resp = true ->
  NorMal env resp = false ->
  Storage_Response (bot_Storage b) = Some r0 ->
  Caller_WebWxSync env (t ++ poll_events b resp)
    (Storage_Request (bot_Storage b)) (Storage_Response (bot_Storage b))
    (Storage_LoginInfo (bot_Storage b)) = inr r ->
  syncCheck_body env b t =
    (with_SyncKey (sync_SyncKey r) r0 b,
     t ++ poll_events b resp ++ fetch_events b (sync_SyncKey r)
       ++ handler_events b (sync_SyncKey r) (AddMsgList r),
     Continue).
Proof.
  intros H Hs Hn H0 Hf. unfold syncCheck_body. rewrite H, Hs, Hn. cbn [negb].
  rewrite syncCheck_body_polled. unfold syncMessage. rewrite Hf, H0.
  unfold handler_events, fetch_events, with_SyncKey, dispatch, cursor.
  cbn [MessageHandler set_Storage bot_Storage set_Storage_Response
       Storage_Response option_map init_SyncKey].
  rewrite H0.
  destruct (MessageHandler b); rewrite <- ?app_assoc; cbn [app];
    rewrite ?app_nil_r; reflexivity.
Qed.

Lemma cursor_writes_app (l1 l2 : trace) :
  cursor_writes (l1 ++ l2) = cursor_writes l1 + cursor_writes l2.
Proof. unfold cursor_writes. rewrite filter_app, length_app. reflexivity. Qed.

Lemma handler_events_only_Handle (b : Bot) (k : SyncKey) (ms : list Message) :
  cursor_writes (handler_events b k ms) = 0 /\
  filter is_Handle (handler_events b k ms) = handler_events b k ms /\
  (MessageHandler b = true ->
   handler_events b k ms = map (fun m => Handle m (Some k)) ms) /\
  (MessageHandler b = false -> handler_events b k ms = []).
Proof.
  unfold handler_events, cursor_writes.
  destruct (MessageHandler b).
  - split; [|split; [|split]]; try reflexivity; try discriminate.
    + induction ms; simpl; auto.
    + induction ms; simpl; congruence.
  - split; [|split; [|split]]; try reflexivity; discriminate.
Qed.

Lemma poll_events_quiet (b : Bot) (resp : SyncCheckResponse) :
  cursor_writes (poll_events b resp) = 0 /\
  filter is_Handle (poll_events b resp) = [].
Proof.
  unfold poll_events, cursor_writes. destruct (SyncCheckCallback b);
    split; reflexivity.
Qed.

(** C4: in a pass whose long-poll announces news and whose fetch returns
    [r], the cursor of the session state ends as [r]'s [SyncKey]; the events
    of the pass are the poll, the fetch call, one cursor write of that value
    and then the handler calls, each of which sees the new cursor; no other
    cursor write and no handler call precedes the write. *)
Theorem C4_cursor_written_once_before_dispatch (env : Env) (b : Bot)
    (t : trace) (resp : SyncCheckResponse) (r0 : WebInitResponse)
    (r : WebWxSyncResponse) :
  Caller_SyncCheck env t (Storage_Request (bot_Storage b))
    (Storage_LoginInfo (bot_Storage b)) (Storage_Response (bot_Storage b))
    = inr resp ->
  Success env resp = true ->
  NorMal env resp = false ->
  Storage_Response (bot_Storage b) = Some r0 ->
  Caller_WebWxSync env (t ++ poll_events b resp)
    (Storage_Request (bot_Storage b)) (Storage_Response (bot_Storage b))
    (Storage_LoginInfo (bot_Storage b)) = inr r ->
  let k := sync_SyncKey r in
  let before :=
    poll_events b resp
      ++ [CallWebWxSync (Storage_Request (bot_Storage b))
            (Storage_Response (bot_Storage b))
            (Storage_LoginInfo (bot_Storage b))] in
  let handled := handler_events b k (AddMsgList r) in
  cursor (fst (fst (syncCheck_body env b t))) = Some k /\
  snd (fst (syncCheck_body env b t)) =
    t ++ before ++ [StoreSyncKey k] ++ handled /\
  cursor_writes (before ++ [StoreSyncKey k] ++ handled) = 1 /\
  cursor_writes before = 0 /\
  filter is_Handle before = [] /\
  filter is_Handle handled = handled /\
  cursor_writes handled = 0.
Proof.
  intros H Hs Hn H0 Hf k before handled.
  rewrite (syncCheck_body_fetch env b t resp r0 r H Hs Hn H0 Hf).
  cbn [fst snd].
  destruct (handler_events_only_Handle b k (AddMsgList r)) as [A [B _]].
  destruct (poll_events_quiet b resp) as [C D].
  assert (Hb : cursor_writes before = 0).
  { unfold before. rewrite cursor_writes_app, C. reflexivity. }
  split; [reflexivity|].
  split.
  { unfold before, fetch_events, handled, k. rewrite <- !app_assoc.
    reflexivity. }
  split.
  { rewrite !cursor_writes_app, Hb. fold handled in A. rewrite A.
    reflexivity. }
  split; [exact Hb|].
  split.
  { unfold before. rewrite filter_app, D. reflexivity. }
  split; [exact B | exact A].
Qed.

Lemma C4_cursor_written_once_before_dispatch_witness :
  cursor (fst (fst (syncCheck_body (Sample.env false) Sample.online []))) =
    Some "k2" /\
  snd (fst (syncCheck_body (Sample.env false) Sample.online [])) =
    [CallSyncCheck (Some Sample.request) (Some Sample.info)
       (Some {| init_User := "alice"; init_SyncKey := "k1" |});
     HeartBeat {| RetCode := "0"; Selector := "2" |};
     CallWebWxSync (Some Sample.request)
       (Some {| init_User := "alice"; init_SyncKey := "k1" |})
       (Some Sample.info);
     StoreSyncKey "k2";
     Handle "m1" (Some "k2");
     Handle "m2" (Some "k2")].
Proof.
  destruct (C4_cursor_written_once_before_dispatch (Sample.env false)
              Sample.online [] {| RetCode := "0"; Selector := "2" |}
              {| init_User := "alice"; init_SyncKey := "k1" |}
              {| sync_SyncKey := "k2"; AddMsgList := ["m1"; "m2"] |}
              eq_refl eq_refl eq_refl eq_refl eq_refl)
    as [H1 [H2 _]].
  split; [exact H1 | exact H2].
Defined.

(** ** The long-poll loop *)

Lemma syncCheck_alive (env : Env) (n : nat) (b : Bot) (t : trace) :
  Alive b = true ->
  syncCheck env (S n) b t =
    match syncCheck_body env b t with
    | (b1, t1, Continue) => syncCheck env n b1 t1
    | (b1, t1, r) => Some (b1, t1, r)
    end.
Proof. intros H. cbn [syncCheck]. rewrite H. reflexivity. Qed.

(** C5: for a live session whose long-poll answers [resp]: a non-success
    status makes [syncCheck] return [resp.Err()]; success with [NorMal]
    leads straight to the next loop head, with only the poll events added;
    success without [NorMal] issues the fetch, and when the fetch returns
    [r] the loop goes on with the cursor advanced to [r]'s key and one
    handler call per message of [r] in order, or none when no handler is
    set; a failed fetch makes [syncCheck] return its error. *)
Theorem C5_poll_signal_dispatch (env : Env) (n : nat) (b : Bot) (t : trace)
    (resp : SyncCheckResponse) :
  Alive b = true ->
  Caller_SyncCheck env t (Storage_Request (bot_Storage b))
    (Storage_LoginInfo (bot_Storage b)) (Storage_Response (bot_Storage b))
    = inr resp ->
  (Success env resp = false ->
   syncCheck env (S n) b t =
     Some (b, t ++ poll_events b resp, Returned (Err env resp))) /\
  (Success env resp = true -> NorMal env resp = true ->
   syncCheck env (S n) b t = syncCheck env n b (t ++ poll_events b resp)) /\
  (Success env resp = true -> NorMal env resp = false ->
   forall r0, Storage_Response (bot_Storage b) = Some r0 ->
     (forall r,
        Caller_WebWxSync env (t ++ poll_events b resp)
          (Storage_Request (bot_Storage b)) (Some r0)
          (Storage_LoginInfo (bot_Storage b)) = inr r ->
        syncCheck env (S n) b t =
          syncCheck env n (with_SyncKey (sync_SyncKey r) r0 b)
            (t ++ poll_events b resp ++ fetch_events b (sync_SyncKey r)
               ++ handler_events b (sync_SyncKey r) (AddMsgList r)) /\
        (MessageHandler b = true ->
         handler_events b (sync_SyncKey r) (AddMsgList r) =
           map (fun m => Handle m (Some (sync_SyncKey r))) (AddMsgList r)) /\
        (MessageHandler b = false ->
         handler_events b (sync_SyncKey r) (AddMsgList r) = []) /\
        cursor (with_SyncKey (sync_SyncKey r) r0 b) = Some (sync_SyncKey r)) /\
     (forall e,
        Caller_WebWxSync env (t ++ poll_events b resp)
          (Storage_Request (bot_Storage b)) (Some r0)
          (Storage_LoginInfo (bot_Storage b)) = inl e ->
        syncCheck env (S n) b t =
          Some (b,
                t ++ poll_events b resp
                  ++ [CallWebWxSync (Storage_Request (bot_Storage b))
                        (Some r0) (Storage_LoginInfo (bot_Storage b))],
                Returned (Some e)))).
Proof.
  intros Ha H. rewrite (syncCheck_alive env n b t Ha).
  split; [|split].
  - intros Hs. rewrite (syncCheck_body_status_error env b t resp H Hs).
    reflexivity.
  - intros Hs Hn. rewrite (syncCheck_body_normal env b t resp H Hs Hn).
    reflexivity.
  - intros Hs Hn r0 H0. split.
    + intros r Hf. rewrite <- H0 in Hf.
      rewrite (syncCheck_body_fetch env b t resp r0 r H Hs Hn H0 Hf).
      destruct (handler_events_only_Handle b (sync_SyncKey r) (AddMsgList r))
        as [_ [_ [A B]]].
      split; [reflexivity|]. split; [exact A|]. split; [exact B|].
      reflexivity.
    + intros e Hf. rewrite <- H0 in Hf.
      rewrite (syncCheck_body_fetch_error env b t resp e H Hs Hn Hf).
      rewrite H0. reflexivity.
Qed.

Lemma C5_poll_signal_dispatch_witness :
  syncCheck (Sample.env false) 3 Sample.online [] =
    syncCheck (Sample.env false) 2
      (with_SyncKey "k2" {| init_User := "alice"; init_SyncKey := "k1" |}
         Sample.online)
      [CallSyncCheck (Some Sample.request) (Some Sample.info)
         (Some {| init_User := "alice"; init_SyncKey := "k1" |});
       HeartBeat {| RetCode := "0"; Selector := "2" |};
       CallWebWxSync (Some Sample.request)
         (Some {| init_User := "alice"; init_SyncKey := "k1" |})
         (Some Sample.info);
       StoreSyncKey "k2";
       Handle "m1" (Some "k2");
       Handle "m2" (Some "k2")].
Proof.
  destruct (C5_poll_signal_dispatch (Sample.env false) 2 Sample.online []
              {| RetCode := "0"; Selector := "2" |} eq_refl eq_refl)
    as [_ [_ H]].
  destruct (H eq_refl eq_refl
              {| init_User := "alice"; init_SyncKey := "k1" |} eq_refl)
    as [Hok _].
  destruct (Hok {| sync_SyncKey := "k2"; AddMsgList := ["m1"; "m2"] |} eq_refl)
    as [Hrun _].
  exact Hrun.
Defined.

(** ** The start-once guard *)

Lemma loops_started_app (l1 l2 : trace) :
  loops_started (l1 ++ l2) = loops_started l1 + loops_started l2.
Proof. unfold loops_started. rewrite filter_app, length_app. reflexivity. Qed.

Lemma loops_started_dispatch (b : Bot) (ms : list Message) :
  loops_started (dispatch b ms) = 0.
Proof. unfold dispatch, loops_started. induction ms; simpl; auto. Qed.

Lemma quiet_guard_inv (s s' : Bot * trace) :
  quiet s s' -> guard_inv s -> guard_inv s'.
Proof.
  unfold quiet, guard_inv. intros [H1 H2] H. rewrite H1, H2. exact H.
Qed.

Ltac innermost_case :=
  match goal with
  | |- context [match ?x with _ => _ end] =>
      lazymatch x with
      | context [match _ with _ => _ end] => fail
      | _ => destruct x eqn:?
      end
  end.

Ltac quiet_cases :=
  repeat innermost_case;
  unfold quiet; cbn [fst snd];
  (split;
   [ reflexivity
   | rewrite ?loops_started_app, ?loops_started_dispatch; cbn; lia ]).

Lemma Exit_quiet (b : Bot) (t : trace) : quiet (b, t) (Exit b t).
Proof. unfold Exit. quiet_cases. Qed.

Lemma Logout_quiet (env : Env) (b : Bot) (t : trace) :
  quiet (b, t) (fst (Logout env b t)).
Proof. unfold Logout, Exit. quiet_cases. Qed.

Lemma syncCheck_body_quiet (env : Env) (b : Bot) (t : trace) :
  quiet (b, t) (fst (syncCheck_body env b t)).
Proof. unfold syncCheck_body, syncMessage. quiet_cases. Qed.

Lemma call_MessageErrorHandler_quiet (env : Env) (b : Bot) (t : trace)
    (e : error) :
  quiet (b, t) (fst (call_MessageErrorHandler env b t e)).
Proof.
  unfold call_MessageErrorHandler, defaultSyncCheckErrHandler.
  pose proof (Logout_quiet env b t) as HL.
  destruct (Logout env b t) as [[bl tl] el]. cbn [fst] in HL.
  repeat innermost_case; cbn [fst]; try exact HL; split; reflexivity.
Qed.

Lemma DumpHotReloadStorage_once (env : Env) (b : Bot) :
  once (fst (DumpHotReloadStorage env b)) = once b.
Proof.
  unfold DumpHotReloadStorage, DumpTo.
  repeat innermost_case; reflexivity.
Qed.

Lemma go_once_Do_guard_inv (b : Bot) (t : trace) :
  guard_inv (b, t) -> guard_inv (go_once_Do b t).
Proof.
  unfold guard_inv, go_once_Do. cbn [fst snd]. intros H.
  destruct (once b) eqn:Ho; cbn [fst snd].
  - rewrite Ho. exact H.
  - rewrite loops_started_app, H. reflexivity.
Qed.

Lemma WebInit_guard_inv (env : Env) (b : Bot) (t : trace) :
  guard_inv (b, t) -> guard_inv (fst (WebInit env b t)).
Proof.
  intros H. unfold WebInit.
  destruct (Caller_WebInit env t _) as [e|resp0].
  - cbn [fst]. apply (quiet_guard_inv (b, t)); [|exact H].
    unfold quiet. cbn [fst snd]. rewrite loops_started_app. cbn. split; [reflexivity|lia].
  - destruct (Caller_WebWxStatusNotify env _ _ _ _) as [e|].
    + cbn [fst]. apply (quiet_guard_inv (b, t)); [|exact H].
      unfold quiet. cbn [fst snd]. rewrite !loops_started_app. cbn.
      split; [reflexivity|lia].
    + match goal with
      | |- context [go_once_Do ?x ?y] =>
          pose proof (go_once_Do_guard_inv x y) as HG;
          destruct (go_once_Do x y) as [b3 t3]
      end.
      cbn [fst]. apply HG.
      apply (quiet_guard_inv (b, t)); [|exact H].
      unfold quiet. cbn [fst snd]. rewrite !loops_started_app. cbn.
      split; [reflexivity|lia].
Qed.

Lemma HandleLogin_guard_inv (env : Env) (data : list byte) (b : Bot)
    (t : trace) :
  guard_inv (b, t) -> guard_inv (fst (HandleLogin env data b t)).
Proof.
  intros H. unfold HandleLogin.
  assert (Hq : forall b', once b' = once b ->
                 guard_inv (b', t ++ [CallGetLoginInfo data])).
  { intros b' Hb. apply (quiet_guard_inv (b, t)); [|exact H].
    unfold quiet. cbn [fst snd]. rewrite loops_started_app. cbn.
    split; [exact Hb|lia]. }
  destruct (Caller_GetLoginInfo env t data) as [e|info].
  - cbn [fst]. apply Hq. reflexivity.
  - match goal with
    | |- context [hotReloadStorage ?x] => set (b3 := x)
    end.
    assert (H3 : once b3 = once b).
    { unfold b3. destruct (String.eqb _ _); reflexivity. }
    destruct (hotReloadStorage b3).
    + pose proof (DumpHotReloadStorage_once env b3) as Hd.
      destruct (DumpHotReloadStorage env b3) as [b4 [e|]]; cbn [fst] in Hd.
      * cbn [fst]. apply Hq. congruence.
      * apply WebInit_guard_inv. apply Hq. congruence.
    + apply WebInit_guard_inv. apply Hq. exact H3.
Qed.

Lemma step_guard_inv (env : Env) (o : op) (s : Bot * trace) :
  guard_inv s -> guard_inv (step env o s).
Proof.
  destruct s as [b t]. intros H. destruct o; cbn [step].
  - exact H.
  - exact H.
  - exact H.
  - apply HandleLogin_guard_inv. exact H.
  - apply WebInit_guard_inv. exact H.
  - apply (quiet_guard_inv (b, t)); [|exact H]. split; cbn [fst snd].
    + apply reload_keeps.
    + reflexivity.
  - apply (quiet_guard_inv (b, t)); [|exact H]. split; cbn [fst snd].
    + apply DumpHotReloadStorage_once.
    + reflexivity.
  - apply (quiet_guard_inv (b, t)); [|exact H]. apply Logout_quiet.
  - apply (quiet_guard_inv (b, t)); [|exact H]. apply Exit_quiet.
  - destruct (MessageErrorHandler b); exact H.
  - destruct (Alive b); [|exact H].
    apply (quiet_guard_inv (b, t)); [|exact H]. apply syncCheck_body_quiet.
  - pose proof (call_MessageErrorHandler_quiet env b t e) as Hq.
    destruct (call_MessageErrorHandler env b t e) as [[b1 t1] r].
    cbn [fst] in Hq.
    destruct r as [|[|]|]; apply (quiet_guard_inv (b, t)); try exact H;
      exact Hq.
Qed.

Lemma run_guard_inv (env : Env) (ops : list op) (s : Bot * trace) :
  guard_inv s -> guard_inv (run env ops s).
Proof.
  unfold run. revert s. induction ops as [|o ops IH]; intros s H.
  - exact H.
  - cbn [fold_left]. apply IH. apply step_guard_inv. exact H.
Qed.

(** C7: along every run of operations on a new [Bot] — logins, resumed
    logins ([reload] then [WebInit]), dumps, logout, exit and the steps of
    the background task, in any order — the background task is started at
    most once; [WebInit] on a bot whose guard has fired starts nothing, and
    [reload] leaves the guard as it is. *)
Theorem C7_sync_loop_started_at_most_once (env : Env) :
  (forall ops, loops_started (snd (run env ops (NewBot env, []))) <= 1) /\
  (forall b t,
     loops_started (snd (fst (WebInit env (set_once true b) t))) =
       loops_started t /\
     once (fst (fst (WebInit env (set_once true b) t))) = true) /\
  (forall b, once (fst (reload env b)) = once b).
Proof.
  split; [|split].
  - intros ops.
    assert (H : guard_inv (run env ops (NewBot env, []))).
    { apply run_guard_inv. reflexivity. }
    unfold guard_inv in H. rewrite H.
    destruct (once (fst (run env ops (NewBot env, [])))); lia.
  - intros b t. unfold WebInit.
    destruct (Caller_WebInit env t _) as [e|resp0].
    + cbn [fst snd]. rewrite loops_started_app. cbn. split; [lia|reflexivity].
    + destruct (Caller_WebWxStatusNotify env _ _ _ _) as [e|];
        unfold go_once_Do; cbn [fst snd once set_once set_Storage set_self];
        rewrite !loops_started_app; cbn; split; try lia; reflexivity.
  - intros b. apply reload_keeps.
Qed.

(** * Further properties of the orchestrator *)

(** ** Login URL and browser command *)



(** X2: whatever the operating system, the URL is the last argument of the
    browser command and the only one that is not a fixed flag; the program is
    one of [cmd], [open], [xdg-open], and only Windows gets flags. *)
Theorem open_Command_url_last (GOOS url : string) :
  List.last (snd (open_Command GOOS url)) "" = url /\
  (fst (open_Command GOOS url) = "cmd" /\ GOOS = "windows" /\
   snd (open_Command GOOS url) = ["/c"; "start"; url]
   \/ fst (open_Command GOOS url) = "open" /\ GOOS = "darwin" /\
      snd (open_Command GOOS url) = [url]
   \/ fst (open_Command GOOS url) = "xdg-open" /\ GOOS <> "windows" /\
      GOOS <> "darwin" /\ snd (open_Command GOOS url) = [url]).
Proof.
  unfold open_Command.
  destruct (String.eqb_spec GOOS "windows") as [Hw|Hw].
  - split; [reflexivity|]. left. auto.
  - destruct (String.eqb_spec GOOS "darwin") as [Hd|Hd].
    + split; [reflexivity|]. right. left. auto.
    + split; [reflexivity|]. right. right. auto.
Qed.

(** ** Exit and Logout *)


(** X4: a [Logout] whose remote call succeeds makes exactly that one call,
    with the stored login info, then the logout notification if one is set;
    it returns nil and leaves the session [Exited], so that a second [Logout]
    returns the usage error without any remote call. *)
Theorem Logout_success_then_usage_error (env : Env) (b : Bot) (t : trace) :
  Alive b = true ->
  Caller_Logout env t (Storage_LoginInfo (bot_Storage b)) = None ->
  let r := Logout env b t in
  snd r = None /\
  snd (fst r) =
    t ++ [CallLogout (Storage_LoginInfo (bot_Storage b))]
      ++ (if LogoutCallBack b then [LogoutNotify] else []) /\
  Exited (fst (fst r)) /\
  Logout env (fst (fst r)) (snd (fst r)) =
    (fst (fst r), snd (fst r), Some (errors_New "user not login")).
Proof.
  intros Ha Hc r. unfold r. rewrite (Logout_remote_ok env b t Ha Hc).
  cbn [fst snd].
  split; [reflexivity|]. split.
  - unfold Exit. cbn [snd]. destruct (LogoutCallBack b).
    + rewrite <- app_assoc. reflexivity.
    + rewrite app_nil_r. reflexivity.
  - split; [apply Exit_Exited|].
    apply Logout_not_alive. apply Exited_not_Alive. apply Exit_Exited.
Qed.

Lemma Logout_success_then_usage_error_witness :
  snd (Logout (Sample.env false) Sample.online []) = None /\
  snd (fst (Logout (Sample.env false) Sample.online [])) =
    [CallLogout (Some Sample.info)].
Proof.
  destruct (Logout_success_then_usage_error (Sample.env false) Sample.online []
              eq_refl eq_refl) as [H1 [H2 _]].
  split; [exact H1 | exact H2].
Defined.

(** ** The default classifier's effects *)

(** On an error that is not fatal the default classifier answers "continue"
    and leaves bot and trace alone. *)
Lemma default_handler_nonfatal (env : Env) (bot : Bot) (t : trace)
    (e : error) :
  ~ fatal env e ->
  defaultSyncCheckErrHandler env bot t e = (bot, t, true).
Proof.
  intros H. unfold defaultSyncCheckErrHandler.
  destruct (errors_As_Ret e) as [ret|] eqn:Hr; [|reflexivity].
  destruct ((ret =? failedLoginCheck env)%Z || (ret =? cookieInvalid env)%Z
            || (ret =? failedLoginWarn env)%Z) eqn:Hf; [|reflexivity].
  exfalso. apply H. exists ret. split; [exact Hr|]. apply fatal_dec. exact Hf.
Qed.

(** X5: on an error that is not fatal the default classifier touches neither
    the bot nor the transport; on a fatal error of a session that is no
    longer alive it answers "stop", again without any remote call. *)
Theorem defaultSyncCheckErrHandler_no_effect (env : Env) (bot : Bot)
    (t : trace) (e : error) :
  ~ fatal env e \/ Alive bot = false ->
  fst (defaultSyncCheckErrHandler env bot t e) = (bot, t) /\
  (~ fatal env e -> snd (defaultSyncCheckErrHandler env bot t e) = true) /\
  (fatal env e -> snd (defaultSyncCheckErrHandler env bot t e) = false).
Proof.
  intros H. split; [|split].
  - unfold defaultSyncCheckErrHandler.
    destruct (errors_As_Ret e) as [ret|] eqn:Hr; [|reflexivity].
    destruct ((ret =? failedLoginCheck env)%Z || (ret =? cookieInvalid env)%Z
              || (ret =? failedLoginWarn env)%Z) eqn:Hf; [|reflexivity].
    destruct H as [H|H].
    + exfalso. apply H. exists ret. split; [exact Hr|].
      apply fatal_dec. exact Hf.
    + rewrite (Logout_not_alive env bot t H). reflexivity.
  - intros Hn.
    destruct (snd (defaultSyncCheckErrHandler env bot t e)) eqn:E;
      [reflexivity|].
    exfalso. apply Hn.
    apply (defaultSyncCheckErrHandler_stop_iff env bot t e). exact E.
  - intros Hf. apply defaultSyncCheckErrHandler_stop_iff. exact Hf.
Qed.

Lemma defaultSyncCheckErrHandler_no_effect_witness :
  fst (defaultSyncCheckErrHandler (Sample.env false) Sample.online []
         (errors_New "timeout")) = (Sample.online, []).
Proof.
  destruct (defaultSyncCheckErrHandler_no_effect (Sample.env false)
              Sample.online [] (errors_New "timeout")) as [H _].
  - left. intros [ret [Hr _]]. discriminate Hr.
  - exact H.
Defined.

(** ** Reloading *)

(** X6: a [reload] that returns an error — no storage, or content that does
    not decode — leaves the bot exactly as it was. *)
Theorem reload_error_leaves_bot (env : Env) (b : Bot) :
  snd (reload env b) <> None -> fst (reload env b) = b.
Proof.
  unfold reload. destruct (hotReloadStorage b) as [content|]; [|reflexivity].
  destruct (json_Decode env content) as [e|item]; [reflexivity|].
  cbn [snd]. intros H. exfalso. apply H. reflexivity.
Qed.

Lemma reload_error_leaves_bot_witness :
  fst (reload (Sample.env false) (NewBot (Sample.env false))) =
    NewBot (Sample.env false).
Proof.
  apply (reload_error_leaves_bot (Sample.env false) (NewBot (Sample.env false))).
  cbn. discriminate.
Defined.

(** ** What the long-poll loop changes *)

Lemma with_Response_id (b : Bot) :
  with_Response (Storage_Response (bot_Storage b)) b = b.
Proof. destruct b as [? ? ? ? ? ? ? ? ? [? ? ?] ? ? ?]. reflexivity. Qed.

Lemma with_Response_twice (r1 r2 : option WebInitResponse) (b : Bot) :
  with_Response r2 (with_Response r1 b) = with_Response r2 b.
Proof. reflexivity. Qed.

Lemma replay_poll_events (b : Bot) (resp : SyncCheckResponse)
    (c : option SyncKey) :
  fold_left replay_cursor (poll_events b resp) c = c.
Proof. unfold poll_events. destruct (SyncCheckCallback b); reflexivity. Qed.

Lemma replay_handler_events (b : Bot) (k : SyncKey) (ms : list Message)
    (c : option SyncKey) :
  fold_left replay_cursor (handler_events b k ms) c = c.
Proof.
  unfold handler_events. destruct (MessageHandler b); [|reflexivity].
  revert c. induction ms as [|m ms IH]; intros c; simpl; auto.
Qed.

Lemma syncCheck_body_nil_Response (env : Env) (b : Bot) (t : trace)
    (resp : SyncCheckResponse) (r : WebWxSyncResponse) :
  Caller_SyncCheck env t (Storage_Request (bot_Storage b))
    (Storage_LoginInfo (bot_Storage b)) (Storage_Response (bot_Storage b))
    = inr resp ->
  Success env resp = true ->
  NorMal env resp = false ->
  Storage_Response (bot_Storage b) = None ->
  Caller_WebWxSync env (t ++ poll_events b resp)
    (Storage_Request (bot_Storage b)) (Storage_Response (bot_Storage b))
    (Storage_LoginInfo (bot_Storage b)) = inr r ->
  syncCheck_body env b t =
    (b,
     t ++ poll_events b resp
       ++ [CallWebWxSync (Storage_Request (bot_Storage b))
             (Storage_Response (bot_Storage b))
             (Storage_LoginInfo (bot_Storage b))],
     Panicked).
Proof.
  intros H Hs Hn H0 Hf. unfold syncCheck_body. rewrite H, Hs, Hn. cbn [negb].
  rewrite syncCheck_body_polled. unfold syncMessage. rewrite Hf, H0.
  rewrite <- app_assoc. reflexivity.
Qed.

(** One pass replaces at most the init response, keeps its user and its
    presence, extends the trace, and the cursor it leaves is the replay of the
    cursor writes it logged; it panics only without an init response. *)
Lemma syncCheck_body_frame (env : Env) (b : Bot) (t : trace) :
  exists resp' new,
    fst (syncCheck_body env b t) = (with_Response resp' b, t ++ new) /\
    option_map init_User resp' =
      option_map init_User (Storage_Response (bot_Storage b)) /\
    option_map init_SyncKey resp' = fold_left replay_cursor new (cursor b) /\
    (resp' = None <-> Storage_Response (bot_Storage b) = None) /\
    (snd (syncCheck_body env b t) = Panicked ->
     Storage_Response (bot_Storage b) = None).
Proof.
  assert (Hsame : forall new c,
            syncCheck_body env b t = (b, t ++ new, c) ->
            fold_left replay_cursor new (cursor b) = cursor b ->
            c <> Panicked ->
            exists resp' new0,
              fst (syncCheck_body env b t) = (with_Response resp' b, t ++ new0) /\
              option_map init_User resp' =
                option_map init_User (Storage_Response (bot_Storage b)) /\
              option_map init_SyncKey resp' =
                fold_left replay_cursor new0 (cursor b) /\
              (resp' = None <-> Storage_Response (bot_Storage b) = None) /\
              (snd (syncCheck_body env b t) = Panicked ->
               Storage_Response (bot_Storage b) = None)).
  { intros new c E Hr Hc. exists (Storage_Response (bot_Storage b)), new.
    rewrite E, with_Response_id. cbn [fst snd].
    split; [reflexivity|]. split; [reflexivity|].
    split; [rewrite Hr; reflexivity|]. split; [tauto|].
    intros Hp. exfalso. apply Hc. exact Hp. }
  destruct (Caller_SyncCheck env t (Storage_Request (bot_Storage b))
              (Storage_LoginInfo (bot_Storage b))
              (Storage_Response (bot_Storage b))) as [e|resp] eqn:H.
  - apply (Hsame _ _ (syncCheck_body_transport_error env b t e H));
      [reflexivity | discriminate].
  - destruct (Success env resp) eqn:Hs.
    + destruct (NorMal env resp) eqn:Hn.
      * apply (Hsame _ _ (syncCheck_body_normal env b t resp H Hs Hn));
          [apply replay_poll_events | discriminate].
      * destruct (Caller_WebWxSync env (t ++ poll_events b resp)
                    (Storage_Request (bot_Storage b))
                    (Storage_Response (bot_Storage b))
                    (Storage_LoginInfo (bot_Storage b))) as [e|r] eqn:Hf.
        -- apply (Hsame _ _
                    (syncCheck_body_fetch_error env b t resp e H Hs Hn Hf));
             [|discriminate].
           rewrite fold_left_app, replay_poll_events. reflexivity.
        -- destruct (Storage_Response (bot_Storage b)) as [r0|] eqn:H0.
           ++ rewrite <- H0 in H, Hf.
              rewrite (syncCheck_body_fetch env b t resp r0 r H Hs Hn H0 Hf).
              exists (Some {| init_User := init_User r0;
                              init_SyncKey := sync_SyncKey r |}).
              eexists. cbn [fst snd].
              split; [reflexivity|]. split; [reflexivity|].
              split.
              { rewrite !fold_left_app, replay_poll_events,
                  replay_handler_events. reflexivity. }
              split; [split; discriminate|]. discriminate.
           ++ rewrite <- H0 in H, Hf.
              rewrite (syncCheck_body_nil_Response env b t resp r H Hs Hn H0 Hf).
              exists None. eexists. cbn [fst snd].
              rewrite <- H0 at 1. rewrite with_Response_id.
              split; [reflexivity|]. split; [reflexivity|].
              split.
              { rewrite !fold_left_app, replay_poll_events. unfold cursor.
                rewrite H0. reflexivity. }
              split; [tauto|]. intros _. reflexivity.
    + apply (Hsame _ _ (syncCheck_body_status_error env b t resp H Hs));
        [apply replay_poll_events | discriminate].
Qed.

Lemma Alive_with_Response (resp : option WebInitResponse) (b : Bot) :
  Alive (with_Response resp b) = Alive b.
Proof. reflexivity. Qed.

Lemma syncCheck_frame (env : Env) (fuel : nat) :
  forall b t b' t' r,
    syncCheck env fuel b t = Some (b', t', r) ->
    exists resp' new,
      b' = with_Response resp' b /\
      t' = t ++ new /\
      option_map init_User resp' =
        option_map init_User (Storage_Response (bot_Storage b)) /\
      option_map init_SyncKey resp' = fold_left replay_cursor new (cursor b) /\
      (resp' = None <-> Storage_Response (bot_Storage b) = None) /\
      (r = Panicked -> Storage_Response (bot_Storage b) = None) /\
      r <> Continue.
Proof.
  induction fuel as [|n IH]; intros b t b' t' r H.
  - discriminate H.
  - cbn [syncCheck] in H. destruct (Alive b) eqn:Ha.
    + destruct (syncCheck_body_frame env b t)
        as [r1 [new1 [E1 [U1 [K1 [N1 P1]]]]]].
      destruct (syncCheck_body env b t) as [[b1 t1] c1].
      cbn [fst snd] in E1, P1. inversion E1; subst b1 t1; clear E1.
      assert (Hdone : c1 <> Continue -> Some (with_Response r1 b, t ++ new1, c1)
                        = Some (b', t', r) ->
              exists resp' new,
                b' = with_Response resp' b /\ t' = t ++ new /\
                option_map init_User resp' =
                  option_map init_User (Storage_Response (bot_Storage b)) /\
                option_map init_SyncKey resp' =
                  fold_left replay_cursor new (cursor b) /\
                (resp' = None <-> Storage_Response (bot_Storage b) = None) /\
                (r = Panicked -> Storage_Response (bot_Storage b) = None) /\
                r <> Continue).
      { intros Hc E. inversion E; subst. exists r1, new1.
        repeat (split; [first [reflexivity | assumption]|]). exact Hc. }
      destruct c1 as [|a|].
      * destruct (IH _ _ _ _ _ H) as [r2 [new2 [E2 [T2 [U2 [K2 [N2 [P2 C2]]]]]]]].
        exists r2, (new1 ++ new2).
        split; [rewrite E2; apply with_Response_twice|].
        split; [rewrite T2, app_assoc; reflexivity|].
        split; [rewrite U2; exact U1|].
        split.
        { rewrite K2, fold_left_app. unfold cursor at 1.
          cbn [with_Response set_Storage bot_Storage set_Storage_Response
               Storage_Response].
          rewrite K1. reflexivity. }
        split.
        { rewrite N2. cbn [with_Response set_Storage bot_Storage
                           set_Storage_Response Storage_Response]. exact N1. }
        split; [|exact C2].
        intros Hp. apply N1. apply (P2 Hp).
      * apply Hdone; [discriminate | exact H].
      * apply Hdone; [discriminate | exact H].
    + inversion H; subst. exists (Storage_Response (bot_Storage b')), [].
      rewrite with_Response_id, app_nil_r.
      repeat (split; [first [reflexivity | tauto | discriminate]|]).
      discriminate.
Qed.





(** X8: [syncCheck] only ever extends the trace, and the cursor it leaves is
    the replay of the cursor writes of its run on the cursor it started with:
    the key of the last write if there was one, the initial cursor
    otherwise. *)
Theorem syncCheck_cursor_is_last_write (env : Env) (fuel : nat) (b : Bot)
    (t : trace) (b' : Bot) (t' : trace) (r : ctl (option error)) :
  syncCheck env fuel b t = Some (b', t', r) ->
  exists new,
    t' = t ++ new /\
    cursor b' = fold_left replay_cursor new (cursor b).
Proof.
  intros H.
  destruct (syncCheck_frame env fuel b t b' t' r H)
    as [resp' [new [E [T [_ [K _]]]]]].
  exists new. split; [exact T|]. subst b'. exact K.
Qed.

Lemma syncCheck_cursor_is_last_write_witness :
  exists b' t' r new,
    syncCheck (Sample.env false) 3 Sample.online [] = Some (b', t', r) /\
    t' = [] ++ new /\
    cursor b' = fold_left replay_cursor new (cursor Sample.online) /\
    cursor b' = Some "k2".
Proof.
  assert (H : exists b' t' r,
             syncCheck (Sample.env false) 3 Sample.online [] = Some (b', t', r)
             /\ cursor b' = Some "k2").
  { eexists. eexists. eexists. split; [vm_compute; reflexivity|reflexivity]. }
  destruct H as [b' [t' [r [H Hk]]]].
  destruct (syncCheck_cursor_is_last_write _ _ _ _ _ _ _ H) as [new [T K]].
  exists b', t', r, new. repeat split; assumption.
Defined.

(** ** The background task and its error handler *)

(** X9: with the default handler in place, a long-poll that fails in the
    transport costs one call and nothing else: no heartbeat, no fetch, no
    logout; the bot is unchanged and the outer loop goes round again. *)
Theorem listen_body_retries_transport_error (env : Env) (n : nat) (b : Bot)
    (t : trace) (e : error) :
  Alive b = true ->
  MessageErrorHandler b = Some DefaultHandler ->
  Caller_SyncCheck env t (Storage_Request (bot_Storage b))
    (Storage_LoginInfo (bot_Storage b)) (Storage_Response (bot_Storage b))
    = inl e ->
  ~ fatal env e ->
  listen_body env (S n) b t =
    Some (b,
          t ++ [CallSyncCheck (Storage_Request (bot_Storage b))
                  (Storage_LoginInfo (bot_Storage b))
                  (Storage_Response (bot_Storage b))],
          Continue).
Proof.
  intros Ha Hh Hc Hf. unfold listen_body.
  rewrite (syncCheck_alive env n b t Ha).
  rewrite (syncCheck_body_transport_error env b t e Hc).
  unfold call_MessageErrorHandler. rewrite Hh.
  rewrite (default_handler_nonfatal env b _ e Hf). reflexivity.
Qed.

Lemma listen_body_retries_transport_error_witness :
  listen_body (Faulty.env false false false true false) 1 Sample.online [] =
    Some (Sample.online,
          [CallSyncCheck (Some Sample.request) (Some Sample.info)
             (Some {| init_User := "alice"; init_SyncKey := "k1" |})],
          Continue).
Proof.
  apply (listen_body_retries_transport_error
           (Faulty.env false false false true false) 0 Sample.online []
           (errors_New "timeout") eq_refl eq_refl eq_refl).
  intros [ret [Hr _]]. discriminate Hr.
Defined.

Lemma Logout_bot (env : Env) (b : Bot) (t : trace) :
  fst (fst (Logout env b t)) = b \/
  fst (fst (Logout env b t)) = set_context_Done true (set_self None b).
Proof.
  unfold Logout. destruct (Alive b); [|left; reflexivity].
  destruct (Caller_Logout env t _); [left; reflexivity|].
  right. reflexivity.
Qed.

Lemma defaultSyncCheckErrHandler_bot (env : Env) (b : Bot) (t : trace)
    (e : error) :
  fst (fst (defaultSyncCheckErrHandler env b t e)) = b \/
  fst (fst (defaultSyncCheckErrHandler env b t e)) =
    set_context_Done true (set_self None b).
Proof.
  unfold defaultSyncCheckErrHandler.
  destruct (errors_As_Ret e) as [ret|]; [|left; reflexivity].
  destruct ((ret =? failedLoginCheck env)%Z || (ret =? cookieInvalid env)%Z
            || (ret =? failedLoginWarn env)%Z); [|left; reflexivity].
  pose proof (Logout_bot env b t) as H.
  destruct (Logout env b t) as [[b1 t1] r]. exact H.
Qed.

(** A handler call leaves the bot as it was or as [Exit] leaves it; it
    panics only when no handler is set; the answer [false] means the handler
    in place says stop. *)
Lemma call_MessageErrorHandler_frame (env : Env) (b : Bot) (t : trace)
    (e : error) :
  (fst (fst (call_MessageErrorHandler env b t e)) = b \/
   fst (fst (call_MessageErrorHandler env b t e)) =
     set_context_Done true (set_self None b)) /\
  (MessageErrorHandler b <> None ->
   exists goon, snd (call_MessageErrorHandler env b t e) = Returned goon) /\
  (snd (call_MessageErrorHandler env b t e) = Returned false ->
   says_stop env b e).
Proof.
  unfold call_MessageErrorHandler, says_stop.
  destruct (MessageErrorHandler b) as [[f|]|].
  - split; [left; reflexivity|]. split.
    + intros _. eexists. reflexivity.
    + cbn [snd]. intros H. inversion H. reflexivity.
  - pose proof (defaultSyncCheckErrHandler_bot env b t e) as Hb.
    pose proof (defaultSyncCheckErrHandler_stop_iff env b t e) as Hs.
    destruct (defaultSyncCheckErrHandler env b t e) as [[b1 t1] goon].
    cbn [fst snd] in *. split; [exact Hb|]. split.
    + intros _. eexists. reflexivity.
    + intros H. inversion H. subst. apply Hs. reflexivity.
  - split; [left; reflexivity|]. split.
    + intros H. exfalso. apply H. reflexivity.
    + cbn [snd]. discriminate.
Qed.

Lemma says_stop_same_handler (env : Env) (b b' : Bot) (e : error) :
  MessageErrorHandler b' = MessageErrorHandler b ->
  says_stop env b e -> says_stop env b' e.
Proof. unfold says_stop. intros ->. auto. Qed.

Lemma listen_body_break (env : Env) (n : nat) (b : Bot) (t : trace)
    (b' : Bot) (t' : trace) :
  listen_body env n b t = Some (b', t', Returned tt) ->
  exists e, CrashReason b' = Some e /\ says_stop env b' e.
Proof.
  unfold listen_body. intros H.
  destruct (syncCheck env n b t) as [[[b1 t1] c]|] eqn:Hs; [|discriminate].
  destruct c as [|[e|]|]; try discriminate.
  destruct (call_MessageErrorHandler_frame env b1 t1 e) as [Hb [_ Hstop]].
  destruct (call_MessageErrorHandler env b1 t1 e) as [[b2 t2] c2].
  cbn [fst snd] in Hb, Hstop.
  destruct c2 as [|goon|]; try discriminate.
  destruct goon; cbn [negb] in H; [discriminate|].
  inversion H; subst. exists e. split; [reflexivity|].
  apply (says_stop_same_handler env b1); [|apply Hstop; reflexivity].
  destruct Hb as [Hb|Hb]; rewrite Hb; reflexivity.
Qed.

Lemma listen_loop_break (env : Env) (fuel : nat) :
  forall b t b' t',
    listen_loop env fuel b t = Some (b', t', Returned tt) ->
    exists e, CrashReason b' = Some e /\ says_stop env b' e.
Proof.
  induction fuel as [|n IH]; intros b t b' t' H; [discriminate|].
  cbn [listen_loop] in H.
  destruct (listen_body env n b t) as [[[b1 t1] c]|] eqn:Hb; [|discriminate].
  destruct c as [|[]|].
  - apply (IH _ _ _ _ H).
  - inversion H; subst. apply (listen_body_break env n b t _ _ Hb).
  - discriminate.
Qed.

(** X10: when the background task leaves its loop by [break], the crash
    reason is set, and it is an error on which the handler in place says
    stop: for the default handler a fatal error, for a custom handler one it
    answered [false] to. *)
Theorem listen_break_sets_CrashReason (env : Env) (fuel : nat) (b : Bot)
    (t : trace) (b' : Bot) (t' : trace) :
  listen env fuel b t = Some (b', t', Returned tt) ->
  exists e, CrashReason b' = Some e /\ says_stop env b' e.
Proof. unfold listen. apply listen_loop_break. Qed.

Lemma listen_break_sets_CrashReason_witness :
  exists b' e,
    CrashReason b' = Some e /\ says_stop (Sample.env false) b' e /\
    e = RetError 1100%Z.
Proof.
  assert (H : exists b' t',
             listen (Sample.env false) 5 Sample.online [] =
               Some (b', t', Returned tt) /\
             CrashReason b' = Some (RetError 1100%Z)).
  { eexists. eexists. split; [vm_compute; reflexivity|reflexivity]. }
  destruct H as [b' [t' [H Hc]]].
  destruct (listen_break_sets_CrashReason _ _ _ _ _ _ H) as [e [He Hs]].
  exists b', e. split; [exact He|]. split; [exact Hs|]. congruence.
Defined.

(** ** Cancellation is permanent *)

Ltac frame_cases := repeat innermost_case; cbn; try reflexivity; auto.

Lemma WebInit_context_Done (env : Env) (b : Bot) (t : trace) :
  context_Done (fst (fst (WebInit env b t))) = context_Done b.
Proof. unfold WebInit, go_once_Do. frame_cases. Qed.

Lemma DumpHotReloadStorage_frame (env : Env) (b : Bot) :
  exists w, fst (DumpHotReloadStorage env b) = set_hotReloadStorage w b.
Proof.
  unfold DumpHotReloadStorage, DumpTo.
  destruct (hotReloadStorage b) as [w|] eqn:Hw.
  - destruct (json_Encode env (DumpTo_item b)); eexists; reflexivity.
  - exists None. rewrite <- Hw. destruct b; reflexivity.
Qed.

Lemma HandleLogin_context_Done (env : Env) (data : list byte) (b : Bot)
    (t : trace) :
  context_Done (fst (fst (HandleLogin env data b t))) = context_Done b.
Proof.
  unfold HandleLogin.
  destruct (Caller_GetLoginInfo env t data) as [e|info]; [reflexivity|].
  match goal with
  | |- context [hotReloadStorage ?x] => set (b3 := x)
  end.
  assert (H3 : context_Done b3 = context_Done b).
  { unfold b3. destruct (String.eqb _ _); reflexivity. }
  destruct (hotReloadStorage b3).
  - destruct (DumpHotReloadStorage_frame env b3) as [w Hw].
    destruct (DumpHotReloadStorage env b3) as [b4 [e|]]; cbn [fst] in Hw;
      subst b4.
    + exact H3.
    + rewrite WebInit_context_Done. exact H3.
  - rewrite WebInit_context_Done. exact H3.
Qed.

Lemma reload_frame (env : Env) (b : Bot) :
  context_Done (fst (reload env b)) = context_Done b /\
  self (fst (reload env b)) = self b /\
  Storage_Response (bot_Storage (fst (reload env b))) =
    Storage_Response (bot_Storage b).
Proof.
  unfold reload. destruct (hotReloadStorage b) as [content|];
    [|repeat split; reflexivity].
  destruct (json_Decode env content); repeat split; reflexivity.
Qed.

Lemma step_context_Done (env : Env) (o : op) (b : Bot) (t : trace) :
  context_Done b = true ->
  context_Done (fst (step env o (b, t))) = true.
Proof.
  intros H. destruct o; cbn [step fst].
  - exact H.
  - exact H.
  - exact H.
  - rewrite HandleLogin_context_Done. exact H.
  - rewrite WebInit_context_Done. exact H.
  - destruct (reload_frame env b) as [Hc _]. rewrite Hc. exact H.
  - destruct (DumpHotReloadStorage_frame env b) as [w Hw]. rewrite Hw. exact H.
  - destruct (Logout_bot env b t) as [E|E]; rewrite E; [exact H|reflexivity].
  - reflexivity.
  - destruct (MessageErrorHandler b); exact H.
  - destruct (Alive b); [|exact H].
    destruct (syncCheck_body_frame env b t) as [r1 [new1 [E1 _]]].
    rewrite E1. exact H.
  - destruct (call_MessageErrorHandler_frame env b t e) as [Hb _].
    destruct (call_MessageErrorHandler env b t e) as [[b1 t1] r].
    cbn [fst] in Hb.
    assert (H1 : context_Done b1 = true)
      by (destruct Hb as [E|E]; rewrite E; [exact H|reflexivity]).
    destruct r as [|[|]|]; exact H1.
Qed.

(** X11: once the context is cancelled no sequence of operations on the same
    [Bot] — not even a login whose remote exchanges all succeed — makes it
    alive again: [Logout] keeps returning the usage error and [Block] never
    waits. *)
Theorem cancelled_bot_never_alive_again (env : Env) (ops : list op) (b : Bot)
    (t : trace) :
  context_Done b = true ->
  let s := run env ops (b, t) in
  context_Done (fst s) = true /\
  Alive (fst s) = false /\
  Block (fst s) <> BlockWaits /\
  Logout env (fst s) (snd s) =
    (fst s, snd s, Some (errors_New "user not login")).
Proof.
  intros H. cbv zeta.
  assert (Hc : context_Done (fst (run env ops (b, t))) = true).
  { unfold run. revert b t H.
    induction ops as [|o ops IH]; intros b t H; [exact H|].
    cbn [fold_left].
    pose proof (step_context_Done env o b t H) as H1.
    destruct (step env o (b, t)) as [b1 t1]. apply IH. exact H1. }
  assert (Ha : Alive (fst (run env ops (b, t))) = false)
    by (apply Alive_false_iff; right; exact Hc).
  split; [exact Hc|]. split; [exact Ha|]. split.
  - unfold Block. rewrite Hc. destruct (self _); discriminate.
  - apply Logout_not_alive. exact Ha.
Qed.

Lemma cancelled_bot_never_alive_again_witness :
  Alive (fst (run (Sample.env false) [OpHandleLogin []; OpWebInit]
                (Exit Sample.online []))) = false /\
  self (fst (run (Sample.env false) [OpHandleLogin []; OpWebInit]
               (Exit Sample.online []))) = Some "alice".
Proof.
  destruct (cancelled_bot_never_alive_again (Sample.env false)
              [OpHandleLogin []; OpWebInit]
              (fst (Exit Sample.online [])) (snd (Exit Sample.online []))
              eq_refl) as [_ [Ha _]].
  split; [exact Ha | reflexivity].
Defined.

(** ** No nil dereference along runs *)

Lemma self_from_Response_same (b b' : Bot) :
  self b' = self b ->
  Storage_Response (bot_Storage b') = Storage_Response (bot_Storage b) ->
  self_from_Response b -> self_from_Response b'.
Proof. unfold self_from_Response. intros -> ->. auto. Qed.

Lemma self_from_Response_nil (b : Bot) :
  self b = None -> self_from_Response b.
Proof. unfold self_from_Response. intros -> u H. discriminate. Qed.

Lemma self_from_Response_with (resp' : option WebInitResponse) (b : Bot) :
  option_map init_User resp' =
    option_map init_User (Storage_Response (bot_Storage b)) ->
  self_from_Response b -> self_from_Response (with_Response resp' b).
Proof.
  unfold self_from_Response. intros U H u Hu.
  cbn [with_Response set_Storage self] in Hu.
  destruct (H u Hu) as [r [Hr Hi]]. rewrite Hr in U. cbn in U.
  destruct resp' as [r'|]; [|discriminate]. cbn in U. inversion U.
  exists r'. split; [reflexivity|]. congruence.
Qed.

Lemma WebInit_self_from_Response (env : Env) (b : Bot) (t : trace) :
  self_from_Response b ->
  self_from_Response (fst (fst (WebInit env b t))).
Proof.
  intros H. unfold WebInit.
  destruct (Caller_WebInit env t _) as [e|resp0]; [exact H|].
  assert (Hset : forall o,
            self_from_Response
              (set_once o
                 (set_Storage
                    (set_Storage_Response
                       (Some {| init_User := formatEmoji env (init_User resp0);
                                init_SyncKey := init_SyncKey resp0 |})
                       (bot_Storage
                          (set_self
                             (Some (formatEmoji env (init_User resp0))) b)))
                    (set_self (Some (formatEmoji env (init_User resp0))) b)))).
  { intros o u Hu. cbn in Hu. inversion Hu; subst. eexists.
    split; reflexivity. }
  destruct (Caller_WebWxStatusNotify env _ _ _ _) as [e|].
  - cbn [fst]. intros u Hu. cbn in Hu. inversion Hu; subst. eexists.
    split; reflexivity.
  - unfold go_once_Do. cbn [once set_Storage set_self init_User].
    destruct (once b) eqn:Ho; cbn [fst].
    + intros u Hu. cbn in Hu. inversion Hu; subst. eexists.
      split; reflexivity.
    + apply Hset.
Qed.

Lemma HandleLogin_self_from_Response (env : Env) (data : list byte) (b : Bot)
    (t : trace) :
  self_from_Response b ->
  self_from_Response (fst (fst (HandleLogin env data b t))).
Proof.
  intros H. unfold HandleLogin.
  destruct (Caller_GetLoginInfo env t data) as [e|info]; [exact H|].
  match goal with
  | |- context [hotReloadStorage ?x] => set (b3 := x)
  end.
  assert (H3 : self_from_Response b3).
  { apply (self_from_Response_same b); [| |exact H];
      unfold b3; destruct (String.eqb _ _); reflexivity. }
  destruct (hotReloadStorage b3).
  - destruct (DumpHotReloadStorage_frame env b3) as [w Hw].
    destruct (DumpHotReloadStorage env b3) as [b4 [e|]]; cbn [fst] in Hw;
      subst b4.
    + exact H3.
    + apply WebInit_self_from_Response. exact H3.
  - apply WebInit_self_from_Response. exact H3.
Qed.

Lemma step_self_from_Response (env : Env) (o : op) (b : Bot) (t : trace) :
  self_from_Response b -> self_from_Response (fst (step env o (b, t))).
Proof.
  intros H. destruct o; cbn [step fst].
  - exact H.
  - exact H.
  - exact H.
  - apply HandleLogin_self_from_Response. exact H.
  - apply WebInit_self_from_Response. exact H.
  - destruct (reload_frame env b) as [_ [Hs Hr]].
    apply (self_from_Response_same b); assumption.
  - destruct (DumpHotReloadStorage_frame env b) as [w Hw]. rewrite Hw. exact H.
  - destruct (Logout_bot env b t) as [E|E]; rewrite E;
      [exact H | apply self_from_Response_nil; reflexivity].
  - apply self_from_Response_nil. reflexivity.
  - destruct (MessageErrorHandler b); exact H.
  - destruct (Alive b); [|exact H].
    destruct (syncCheck_body_frame env b t) as [r1 [new1 [E1 [U1 _]]]].
    rewrite E1. cbn [fst]. apply self_from_Response_with; assumption.
  - destruct (call_MessageErrorHandler_frame env b t e) as [Hb _].
    destruct (call_MessageErrorHandler env b t e) as [[b1 t1] r].
    cbn [fst] in Hb.
    assert (H1 : self_from_Response b1)
      by (destruct Hb as [E|E]; rewrite E;
          [exact H | apply self_from_Response_nil; reflexivity]).
    destruct r as [|[|]|]; exact H1.
Qed.

Lemma run_self_from_Response (env : Env) (ops : list op) :
  forall b t, self_from_Response b ->
    self_from_Response (fst (run env ops (b, t))).
Proof.
  unfold run. induction ops as [|o ops IH]; intros b t H; [exact H|].
  cbn [fold_left].
  pose proof (step_self_from_Response env o b t H) as H1.
  destruct (step env o (b, t)) as [b1 t1]. apply IH. exact H1.
Qed.

Lemma Alive_has_Response (b : Bot) :
  self_from_Response b -> Alive b = true ->
  Storage_Response (bot_Storage b) <> None.
Proof.
  unfold Alive. intros H Ha. destruct (self b) as [u|] eqn:Hs; [|discriminate].
  destruct (H u Hs) as [r [Hr _]]. rewrite Hr. discriminate.
Qed.

Lemma syncCheck_no_panic (env : Env) (fuel : nat) (b : Bot) (t : trace) :
  self_from_Response b ->
  match syncCheck env fuel b t with
  | Some (_, _, Panicked) => False
  | _ => True
  end.
Proof.
  intros H.
  destruct (syncCheck env fuel b t) as [[[b' t'] r]|] eqn:E; [|exact I].
  destruct r; try exact I.
  destruct (syncCheck_frame env fuel b t b' t' Panicked E)
    as [resp' [new [_ [_ [_ [_ [_ [P _]]]]]]]].
  specialize (P eq_refl).
  destruct fuel as [|n]; [discriminate E|].
  cbn [syncCheck] in E. destruct (Alive b) eqn:Ha; [|discriminate E].
  apply (Alive_has_Response b H Ha). exact P.
Qed.

(** X12: along every run of operations on a new [Bot] the current user, when
    set, is the user of the init response held; hence a live session always
    has an init response and the long-poll loop started from any state so
    reached never dereferences a nil [Storage.Response]. *)
Theorem run_never_panics_in_syncCheck (env : Env) (ops : list op)
    (fuel : nat) :
  self_from_Response (fst (run env ops (NewBot env, []))) /\
  match syncCheck env fuel (fst (run env ops (NewBot env, [])))
          (snd (run env ops (NewBot env, []))) with
  | Some (_, _, Panicked) => False
  | _ => True
  end.
Proof.
  assert (H : self_from_Response (fst (run env ops (NewBot env, [])))).
  { apply run_self_from_Response. apply self_from_Response_nil. reflexivity. }
  split; [exact H|]. apply syncCheck_no_panic. exact H.
Qed.

(** The background task's loop keeps a non-nil handler and the link between
    current user and init response, so it never panics. *)
Lemma listen_loop_no_panic (env : Env) (fuel : nat) :
  forall b t,
    self_from_Response b ->
    MessageErrorHandler b <> None ->
    match listen_loop env fuel b t with
    | Some (_, _, Panicked) => False
    | _ => True
    end.
Proof.
  induction fuel as [|n IH]; intros b t H Hh; [exact I|].
  cbn [listen_loop]. unfold listen_body.
  pose proof (syncCheck_no_panic env n b t H) as Hnp.
  destruct (syncCheck env n b t) as [[[b1 t1] c]|] eqn:Hs; [|exact I].
  destruct (syncCheck_frame env n b t b1 t1 c Hs)
    as [resp' [new [E [_ [U [_ [_ [_ Hc]]]]]]]].
  assert (H1 : self_from_Response b1)
    by (subst b1; apply self_from_Response_with; assumption).
  assert (Hh1 : MessageErrorHandler b1 <> None) by (subst b1; exact Hh).
  destruct c as [|[e|]|].
  - exfalso. apply Hc. reflexivity.
  - destruct (call_MessageErrorHandler_frame env b1 t1 e) as [Hb [Hr _]].
    destruct (Hr Hh1) as [goon Hg].
    destruct (call_MessageErrorHandler env b1 t1 e) as [[b2 t2] c2].
    cbn [fst snd] in Hb, Hg. subst c2.
    destruct goon; cbn [negb]; [|exact I].
    apply IH.
    + destruct Hb as [Hb|Hb]; rewrite Hb;
        [exact H1 | apply self_from_Response_nil; reflexivity].
    + destruct Hb as [Hb|Hb]; rewrite Hb; exact Hh1.
  - apply IH; assumption.
  - exact Hnp.
Qed.

(** X13: the background task, started on any state reached by a run of
    operations on a new [Bot], never panics: it installs the default handler
    when none is set, so the handler call is never on nil, and it polls only
    while an init response is held. *)
Theorem run_never_panics_in_listen (env : Env) (ops : list op) (fuel : nat) :
  match listen env fuel (fst (run env ops (NewBot env, [])))
          (snd (run env ops (NewBot env, []))) with
  | Some (_, _, Panicked) => False
  | _ => True
  end.
Proof.
  assert (H : self_from_Response (fst (run env ops (NewBot env, [])))).
  { apply run_self_from_Response. apply self_from_Response_nil. reflexivity. }
  unfold listen. apply listen_loop_no_panic.
  - destruct (MessageErrorHandler _); exact H.
  - destruct (MessageErrorHandler (fst (run env ops (NewBot env, []))))
      eqn:E.
    + rewrite E. discriminate.
    + cbn. discriminate.
Qed.

(** ** Initialization and login *)

(** [WebInit] touches the current user, the init response and the guard
    only. *)
Lemma WebInit_frame (env : Env) (b : Bot) (t : trace) :
  let b' := fst (fst (WebInit env b t)) in
  Storage_Request (bot_Storage b') = Storage_Request (bot_Storage b) /\
  Storage_LoginInfo (bot_Storage b') = Storage_LoginInfo (bot_Storage b) /\
  hotReloadStorage b' = hotReloadStorage b /\
  deviceId b' = deviceId b /\
  uuid b' = uuid b /\
  Caller_Client b' = Caller_Client b /\
  CrashReason b' = CrashReason b.
Proof.
  cbv zeta. unfold WebInit, go_once_Do.
  destruct (Caller_WebInit env t _); [repeat split; reflexivity|].
  destruct (Caller_WebWxStatusNotify env _ _ _ _);
    [repeat split; reflexivity|].
  cbn [once set_Storage set_self]. destruct (once b);
    repeat split; reflexivity.
Qed.

(** X14: a [WebInit] that returns an error starts no loop and leaves the
    guard as it was.  If the initialization call failed the bot is unchanged;
    if only the status notification failed the current user and the init
    response are already set, so the session counts as alive although the
    login failed. *)
Theorem WebInit_error_starts_nothing (env : Env) (b : Bot) (t : trace)
    (e : error) :
  snd (WebInit env b t) = Some e ->
  let b' := fst (fst (WebInit env b t)) in
  let t' := snd (fst (WebInit env b t)) in
  once b' = once b /\
  loops_started t' = loops_started t /\
  (Caller_WebInit env t (Storage_Request (bot_Storage b)) = inl e /\ b' = b
   \/
   exists resp0,
     Caller_WebInit env t (Storage_Request (bot_Storage b)) = inr resp0 /\
     GetCurrentUser b' = inr (formatEmoji env (init_User resp0)) /\
     cursor b' = Some (init_SyncKey resp0) /\
     Alive b' = negb (context_Done b)).
Proof.
  cbv zeta. unfold WebInit.
  destruct (Caller_WebInit env t _) as [e0|resp0] eqn:H1.
  - cbn [fst snd]. intros H. inversion H; subst.
    rewrite loops_started_app. cbn.
    split; [reflexivity|]. split; [lia|]. left. split; reflexivity.
  - destruct (Caller_WebWxStatusNotify env _ _ _ _) as [e0|] eqn:H2.
    + cbn [fst snd]. intros H. inversion H; subst.
      rewrite !loops_started_app. cbn.
      split; [reflexivity|]. split; [lia|]. right. exists resp0.
      split; [reflexivity|]. split; [reflexivity|]. split; [reflexivity|].
      unfold Alive. cbn. destruct (context_Done b); reflexivity.
    + unfold go_once_Do. cbn [once set_Storage set_self].
      destruct (once b); cbn [snd]; discriminate.
Qed.

Lemma WebInit_error_starts_nothing_witness :
  snd (WebInit (Faulty.env false false true false false)
         (NewBot (Sample.env false)) []) =
    Some (errors_New "connection refused") /\
  Alive (fst (fst (WebInit (Faulty.env false false true false false)
                     (NewBot (Sample.env false)) []))) = true /\
  loops_started (snd (fst (WebInit (Faulty.env false false true false false)
                             (NewBot (Sample.env false)) []))) = 0.
Proof.
  destruct (WebInit_error_starts_nothing
              (Faulty.env false false true false false)
              (NewBot (Sample.env false)) []
              (errors_New "connection refused") eq_refl)
    as [_ [Hl _]].
  split; [reflexivity|]. split; [reflexivity | exact Hl].
Defined.

(** X15: a [WebInit] that returns nil leaves the session online: the current
    user is the (emoji-formatted) user of the init response, the cursor is
    that response's sync key, the guard has fired, the credentials are the
    ones it was called with, and unless the context was already cancelled the
    session is alive and [Block] waits. *)
Theorem WebInit_success_online (env : Env) (b : Bot) (t : trace) :
  snd (WebInit env b t) = None ->
  let b' := fst (fst (WebInit env b t)) in
  exists resp0,
    Caller_WebInit env t (Storage_Request (bot_Storage b)) = inr resp0 /\
    GetCurrentUser b' = inr (formatEmoji env (init_User resp0)) /\
    cursor b' = Some (init_SyncKey resp0) /\
    once b' = true /\
    Storage_Request (bot_Storage b') = Storage_Request (bot_Storage b) /\
    Storage_LoginInfo (bot_Storage b') = Storage_LoginInfo (bot_Storage b) /\
    Alive b' = negb (context_Done b) /\
    (context_Done b = false -> Block b' = BlockWaits).
Proof.
  cbv zeta. intros H.
  destruct (WebInit_frame env b t) as [F1 [F2 _]].
  revert H F1 F2. unfold WebInit.
  destruct (Caller_WebInit env t _) as [e0|resp0] eqn:H1; [discriminate|].
  destruct (Caller_WebWxStatusNotify env _ _ _ _) as [e0|] eqn:H2;
    [discriminate|].
  unfold go_once_Do. cbn [once set_Storage set_self].
  intros _ F1 F2. exists resp0. split; [reflexivity|].
  destruct (once b) eqn:Ho; cbn [fst snd] in *.
  - split; [reflexivity|]. split; [reflexivity|]. split; [exact Ho|].
    split; [exact F1|]. split; [exact F2|].
    unfold Alive, Block. cbn. destruct (context_Done b).
    + split; [reflexivity|discriminate].
    + split; reflexivity.
  - split; [reflexivity|]. split; [reflexivity|]. split; [reflexivity|].
    split; [exact F1|]. split; [exact F2|].
    unfold Alive, Block. cbn. destruct (context_Done b).
    + split; [reflexivity|discriminate].
    + split; reflexivity.
Qed.

Lemma WebInit_success_online_witness :
  GetCurrentUser (fst (fst (WebInit (Sample.env false)
                              (NewBot (Sample.env false)) []))) =
    inr "alice" /\
  Alive (fst (fst (WebInit (Sample.env false)
                     (NewBot (Sample.env false)) []))) = true.
Proof.
  destruct (WebInit_success_online (Sample.env false)
              (NewBot (Sample.env false)) [] eq_refl)
    as [resp0 [H1 [H2 [_ [_ [_ [_ [H3 _]]]]]]]].
  cbn in H1. inversion H1; subst resp0. split; [exact H2 | exact H3].
Defined.

(** The state [HandleLogin] reaches before persisting and initializing. *)
Lemma HandleLogin_after_info (env : Env) (data : list byte) (b : Bot)
    (t : trace) (info : LoginInfo) :
  Caller_GetLoginInfo env t data = inr info ->
  let dev :=
    if String.eqb (deviceId b) ""
    then GetRandomDeviceId env (t ++ [CallGetLoginInfo data])
    else deviceId b in
  let b3 :=
    set_Storage
      (set_Storage_Request (Some (request_of info dev))
         (set_Storage_LoginInfo (Some info) (bot_Storage b)))
      (set_deviceId dev b) in
  HandleLogin env data b t =
    match hotReloadStorage b with
    | Some _ =>
        match DumpHotReloadStorage env b3 with
        | (b4, Some e) => (b4, t ++ [CallGetLoginInfo data], Some e)
        | (b4, None) => WebInit env b4 (t ++ [CallGetLoginInfo data])
        end
    | None => WebInit env b3 (t ++ [CallGetLoginInfo data])
    end.
Proof.
  intros H. cbv zeta. unfold HandleLogin. rewrite H.
  cbn [set_Storage deviceId]. unfold request_of.
  destruct (String.eqb (deviceId b) "") eqn:Hd.
  - reflexivity.
  - assert (E : set_deviceId (deviceId b) b = b) by (destruct b; reflexivity).
    rewrite E. reflexivity.
Qed.

(** X16: once the login info is obtained, whatever happens next (snapshot
    written or not, initialization accepted or not), [HandleLogin] leaves the
    login info stored and a request built from its [WxUin], [WxSid], [SKey]
    and the device id; a device id set beforehand is kept, an empty one is
    replaced by a generated one, which is remembered. *)
Theorem HandleLogin_stores_credentials (env : Env) (data : list byte)
    (b : Bot) (t : trace) (info : LoginInfo) :
  Caller_GetLoginInfo env t data = inr info ->
  let b' := fst (fst (HandleLogin env data b t)) in
  let dev :=
    if String.eqb (deviceId b) ""
    then GetRandomDeviceId env (t ++ [CallGetLoginInfo data])
    else deviceId b in
  deviceId b' = dev /\
  Storage_LoginInfo (bot_Storage b') = Some info /\
  Storage_Request (bot_Storage b') =
    Some {| Uin := WxUin info; Sid := WxSid info; Skey := SKey info;
            DeviceID := dev |} /\
  (deviceId b <> "" -> deviceId b' = deviceId b).
Proof.
  intros H. cbv zeta. rewrite (HandleLogin_after_info env data b t info H).
  set (dev := if String.eqb (deviceId b) ""
              then GetRandomDeviceId env (t ++ [CallGetLoginInfo data])
              else deviceId b).
  set (b3 := set_Storage _ (set_deviceId dev b)).
  assert (Hdev : deviceId b <> "" -> dev = deviceId b).
  { intros Hn. unfold dev. destruct (String.eqb_spec (deviceId b) "");
      [contradiction|reflexivity]. }
  assert (Hw : forall b4 t4,
            deviceId b4 = dev ->
            Storage_LoginInfo (bot_Storage b4) = Some info ->
            Storage_Request (bot_Storage b4) = Some (request_of info dev) ->
            let b' := fst (fst (WebInit env b4 t4)) in
            deviceId b' = dev /\
            Storage_LoginInfo (bot_Storage b') = Some info /\
            Storage_Request (bot_Storage b') = Some (request_of info dev) /\
            (deviceId b <> "" -> deviceId b' = deviceId b)).
  { intros b4 t4 A B C. cbv zeta.
    destruct (WebInit_frame env b4 t4) as [F1 [F2 [_ [F4 _]]]].
    rewrite F1, F2, F4. repeat split; try assumption.
    intros Hn. rewrite A. apply Hdev. exact Hn. }
  destruct (hotReloadStorage b).
  - destruct (DumpHotReloadStorage_frame env b3) as [w Hw3].
    destruct (DumpHotReloadStorage env b3) as [b4 [e|]]; cbn [fst] in Hw3;
      subst b4.
    + cbn [fst]. repeat split; try reflexivity. exact Hdev.
    + apply Hw; reflexivity.
  - apply Hw; reflexivity.
Qed.

Lemma HandleLogin_stores_credentials_witness :
  deviceId (fst (fst (HandleLogin (Sample.env false) []
                        (SetDeviceId "e000000000000001"
                           (NewBot (Sample.env false))) []))) =
    "e000000000000001" /\
  Storage_Request (bot_Storage
    (fst (fst (HandleLogin (Sample.env false) []
                 (SetDeviceId "e000000000000001"
                    (NewBot (Sample.env false))) [])))) =
    Some {| Uin := 42%Z; Sid := "sid"; Skey := "skey";
            DeviceID := "e000000000000001" |}.
Proof.
  destruct (HandleLogin_stores_credentials (Sample.env false) []
              (SetDeviceId "e000000000000001" (NewBot (Sample.env false))) []
              Sample.info eq_refl) as [H1 [_ [H3 _]]].
  split; [exact H1 | exact H3].
Defined.



(** X18: a login with an empty hot-reload storage whose dump step returned
    nil (so that [HandleLogin] went on to the initialization), with a codec
    that reproduces the item dumped, has persisted the credentials it has just
    obtained: whether or not the initialization then succeeds, the storage
    holds a snapshot from which any orchestrator reloads the login info and
    the request of this login, with the UUID and the domain of the bot. *)
Theorem HandleLogin_persists_new_credentials (env : Env)
    (valid : HotReloadStorageItem -> Prop) (data : list byte)
    (b b0 : Bot) (t : trace) (info : LoginInfo) :
  let dev :=
    if String.eqb (deviceId b) ""
    then GetRandomDeviceId env (t ++ [CallGetLoginInfo data])
    else deviceId b in
  json_round_trip env valid ->
  valid {| item_BaseRequest := Some (request_of info dev);
           item_Jar := Jar (Caller_Client b);
           item_LoginInfo := Some info;
           item_WechatDomain := Domain (Caller_Client b);
           item_UUID := uuid b |} ->
  Caller_GetLoginInfo env t data = inr info ->
  hotReloadStorage b = Some [] ->
  (exists rest,
     snd (fst (HandleLogin env data b t)) =
       t ++ CallGetLoginInfo data
         :: CallWebInit (Some (request_of info dev)) :: rest) ->
  let b' := fst (fst (HandleLogin env data b t)) in
  exists bytes,
    hotReloadStorage b' = Some bytes /\
    let r := reload env (set_hotReloadStorage (Some bytes) b0) in
    snd r = None /\
    Storage_LoginInfo (bot_Storage (fst r)) = Some info /\
    Storage_Request (bot_Storage (fst r)) = Some (request_of info dev) /\
    Storage_Request (bot_Storage b') = Some (request_of info dev) /\
    UUID (fst r) = UUID b /\
    Domain (Caller_Client (fst r)) = Domain (Caller_Client b).
Proof.
  intros dev Hrt Hv H Hs _. cbv zeta.
  rewrite (HandleLogin_after_info env data b t info H).
  fold dev.
  set (b3 := set_Storage _ (set_deviceId dev b)).
  rewrite Hs.
  destruct (Hrt (DumpTo_item b3) Hv) as [bytes [He Hd]].
  assert (HD : DumpHotReloadStorage env b3 =
               (set_hotReloadStorage (Some bytes) b3, None)).
  { unfold DumpHotReloadStorage.
    assert (Hs3 : hotReloadStorage b3 = Some []) by exact Hs.
    rewrite Hs3, (DumpTo_encoded env b3 [] bytes He). reflexivity. }
  rewrite HD in *.
  destruct (WebInit_frame env (set_hotReloadStorage (Some bytes) b3)
              (t ++ [CallGetLoginInfo data])) as [F1 [_ [F3 _]]].
  exists bytes. split; [rewrite F3; reflexivity|].
  destruct (reload_decoded env (set_hotReloadStorage (Some bytes) b0) bytes
              (DumpTo_item b3) eq_refl Hd)
    as [R0 [R1 [R2 [R3 [_ [R5 _]]]]]].
  split; [exact R0|]. split; [rewrite R2; reflexivity|].
  split; [rewrite R1; reflexivity|].
  split; [rewrite F1; reflexivity|].
  split; [exact R5 | exact R3].
Qed.

Lemma HandleLogin_persists_new_credentials_witness :
  exists bytes,
    hotReloadStorage
      (fst (fst (HandleLogin (Sample.env false) []
                   (set_hotReloadStorage (Some [])
                      (NewBot (Sample.env false))) []))) = Some bytes /\
    Storage_LoginInfo (bot_Storage
      (fst (reload (Sample.env false) (Sample.resuming bytes)))) =
      Some Sample.info.
Proof.
  destruct (HandleLogin_persists_new_credentials (Sample.env false)
              (fun _ => True) []
              (set_hotReloadStorage (Some []) (NewBot (Sample.env false)))
              (NewBot (Sample.env false)) [] Sample.info
              (Wire_round_trip false) I eq_refl eq_refl
              (ex_intro _ _ eq_refl))
    as [bytes [H1 [_ [H2 _]]]].
  exists bytes. split; [exact H1 | exact H2].
Defined.
